(** * The sales ETL pipeline of [pipeline.py]

    A shallow embedding of [etl_pipeline]: the pandas operations it calls
    (column selection, [groupby] aggregation, [drop_duplicates], [merge],
    [rename], column assignment), the four aggregates, the four dimension
    tables and the fact table, the BigQuery load loop and the catch-all
    handler around all of it.

    Conventions of the embedding.
    - A cell is an [option value]; [None] is the missing value of pandas
      (NaN, NaT, None).
    - A row is a finite map from column names to values, a table is the
      ordered list of its column names with the list of its rows.  Row
      labels (the pandas index) are not modelled: every frame the program
      touches carries the default positional index, and
      [reset_index(drop=True)] restores exactly that.
    - Numbers are exact rationals in lowest terms ([Qc]); the rounding of
      64-bit floats is not modelled.
    - Text decoding ([pd.read_csv]) and date parsing (the scalar parser
      behind [pd.to_datetime]) are parameters of the development. *)

From Stdlib Require Import QArith Qcanon.
From stdpp Require Import gmap strings list fin_maps sorting.

(** ** Values *)

(** A parsed date: the calendar fields pandas exposes through [.dt], and
    the time of day in nanoseconds. *)
Record Timestamp := mkTimestamp {
  ts_year : Z;
  ts_month : Z;
  ts_day : Z;
  ts_nanos : Z
}.

Inductive value :=
| Str (s : string)
| Num (q : Qc)
| Date (t : Timestamp).

Global Instance Timestamp_eq_dec : EqDecision Timestamp.
Proof. solve_decision. Defined.

Global Instance value_eq_dec : EqDecision value.
Proof. solve_decision. Defined.

Definition Qc_of_Z (z : Z) : Qc := Q2Qc (inject_Z z).
Definition Qc_of_nat (n : nat) : Qc := Qc_of_Z (Z.of_nat n).

Definition Qcmax (a b : Qc) : Qc := if Qle_bool a b then b else a.

(** The order [groupby] sorts its group keys by.  Within one kind it is the
    natural order; a key column of mixed kinds is ordered by kind. *)
Definition timestamp_leb (a b : Timestamp) : bool :=
  match (ts_year a ?= ts_year b)%Z with
  | Lt => true
  | Gt => false
  | Eq =>
    match (ts_month a ?= ts_month b)%Z with
    | Lt => true
    | Gt => false
    | Eq =>
      match (ts_day a ?= ts_day b)%Z with
      | Lt => true
      | Gt => false
      | Eq => (ts_nanos a <=? ts_nanos b)%Z
      end
    end
  end.

Definition value_leb (a b : value) : bool :=
  match a, b with
  | Num p, Num q => Qle_bool p q
  | Num _, _ => true
  | Date _, Num _ => false
  | Date s, Date t => timestamp_leb s t
  | Date _, Str _ => true
  | Str s, Str t => String.leb s t
  | Str _, _ => false
  end.

Definition value_le (a b : value) : Prop := value_leb a b = true.

Global Instance value_le_dec : RelDecision value_le.
Proof. intros a b. unfold value_le. apply _. Defined.

(** ** Exceptions and the error monad of the pure table operations *)

Inductive exn :=
| KeyError (key : string)
| ValueError (msg : string)
| TypeError (msg : string)
| AttributeError (msg : string)
| NotFound (msg : string)
| ParserError (msg : string)
| BadRequest (msg : string)
| ServiceUnavailable (msg : string).

(** [str(e)], schematically: the library's text is kept as the payload. *)
Definition exn_message (e : exn) : string :=
  match e with
  | KeyError k => k
  | ValueError m | TypeError m | AttributeError m
  | NotFound m | ParserError m | BadRequest m | ServiceUnavailable m => m
  end.

Inductive result (A : Type) :=
| Ok (a : A)
| Err (e : exn).
Arguments Ok {A} a.
Arguments Err {A} e.

Global Instance exn_eq_dec : EqDecision exn.
Proof. solve_decision. Defined.

Global Instance result_eq_dec {A} `{EqDecision A} : EqDecision (result A).
Proof. solve_decision. Defined.

Global Instance result_ret : MRet result := λ A a, Ok a.
Global Instance result_bind : MBind result := λ A B f m,
  match m with
  | Ok a => f a
  | Err e => Err e
  end.
Global Instance result_fmap : FMap result := λ A B f m,
  match m with
  | Ok a => Ok (f a)
  | Err e => Err e
  end.

(** ** Tables *)

Abbreviation row := (gmap string value).

Record DataFrame := mkDF {
  columns : list string;
  rows : list row
}.

Global Instance DataFrame_eq_dec : EqDecision DataFrame.
Proof. solve_decision. Defined.

(** Writing a cell: a missing value removes the entry. *)
Definition set_cell (c : string) (v : option value) (r : row) : row :=
  match v with
  | Some x => <[c := x]> r
  | None => delete c r
  end.

(** The cells of a row under the given columns, in that order. *)
Definition cells (cs : list string) (r : row) : list (option value) :=
  (λ c, r !! c) <$> cs.

Definition restrict (cs : list string) (r : row) : row :=
  filter (λ kv, kv.1 ∈ cs) r.

(** The first of the requested labels that the frame lacks. *)
Definition missing (cs cols : list string) : option string :=
  head (filter (λ c, c ∉ cols) cs).

(** [df[c]]: one column as a series. *)
Definition getitem (c : string) (df : DataFrame) : result (list (option value)) :=
  if decide (c ∈ columns df) then Ok ((λ r, r !! c) <$> rows df)
  else Err (KeyError c).

(** [df[[c1, ..., cn]]]: the listed columns, in the listed order. *)
Definition select (cs : list string) (df : DataFrame) : result DataFrame :=
  match missing cs (columns df) with
  | Some c => Err (KeyError c)
  | None => Ok (mkDF cs (restrict cs <$> rows df))
  end.

(** [df[c] = vals]: replaces the column, or appends a new last column. *)
Definition setitem (c : string) (vals : list (option value)) (df : DataFrame)
  : result DataFrame :=
  if decide (length vals = length (rows df)) then
    Ok (mkDF (if decide (c ∈ columns df) then columns df else columns df ++ [c])
             (zip_with (λ r v, set_cell c v r) (rows df) vals))
  else Err (ValueError "Length of values does not match length of index").

(** [df.rename(columns={old: new})]. *)
Definition rename_row (old new : string) (r : row) : row :=
  if decide (old = new) then r
  else set_cell new (r !! old) (delete old r).

Definition rename (old new : string) (df : DataFrame) : DataFrame :=
  if decide (old ∈ columns df) then
    mkDF ((λ c, if decide (c = old) then new else c) <$> columns df)
         (rename_row old new <$> rows df)
  else df.

(** [df.drop_duplicates(subset=cs)]: a row is dropped when an earlier row
    has the same cells under [cs]; two missing cells count as the same.
    Without [subset] all columns are compared. *)
Fixpoint keep_first (cs : list string) (seen : list (list (option value)))
  (rs : list row) : list row :=
  match rs with
  | [] => []
  | r :: rs' =>
    if decide (cells cs r ∈ seen) then keep_first cs seen rs'
    else r :: keep_first cs (cells cs r :: seen) rs'
  end.

Definition drop_duplicates (subset : option (list string)) (df : DataFrame)
  : result DataFrame :=
  let cs := default (columns df) subset in
  match missing cs (columns df) with
  | Some c => Err (KeyError c)
  | None => Ok (mkDF (columns df) (keep_first cs [] (rows df)))
  end.

(** [reset_index(drop=True)]: positions are the labels already. *)
Definition reset_index (df : DataFrame) : DataFrame := df.

(** ** Aggregation *)

(** The numbers of a series; missing cells are skipped, and a cell that is
    not a number cannot be aggregated. *)
Fixpoint numeric (vs : list (option value)) : result (list Qc) :=
  match vs with
  | [] => Ok []
  | None :: vs' => numeric vs'
  | Some (Num q) :: vs' => (q ::.) <$> numeric vs'
  | Some _ :: _ => Err (TypeError "agg function failed")
  end.

Definition total (qs : list Qc) : Qc := foldl Qcplus (Qc_of_Z 0) qs.

Definition agg_sum (vs : list (option value)) : result (option value) :=
  qs ← numeric vs; Ok (Some (Num (total qs))).

Definition agg_max (vs : list (option value)) : result (option value) :=
  qs ← numeric vs;
  Ok (match qs with
      | [] => None
      | q :: qs' => Some (Num (foldl Qcmax q qs'))
      end).

Definition agg_mean (vs : list (option value)) : result (option value) :=
  qs ← numeric vs;
  Ok (match qs with
      | [] => None
      | _ :: _ => Some (Num (Qcdiv (total qs) (Qc_of_nat (length qs))))
      end).

(** [df.groupby(key)[col].agg().reset_index()]: one row per distinct
    non-missing key, keys sorted, with the aggregate of the group's cells
    of [col]. *)
Definition group_keys (key : string) (df : DataFrame) : list value :=
  merge_sort value_le (remove_dups (omap (λ r, r !! key) (rows df))).

Definition group_rows (key : string) (k : value) (df : DataFrame) : list row :=
  filter (λ r, r !! key = Some k) (rows df).

Definition group_cells (key col : string) (k : value) (df : DataFrame)
  : list (option value) :=
  (λ r, r !! col) <$> group_rows key k df.

Definition groupby_agg (key col : string)
  (agg : list (option value) → result (option value)) (df : DataFrame)
  : result DataFrame :=
  if decide (key ∈ columns df) then
    if decide (col ∈ columns df) then
      rs ← mapM (λ k, v ← agg (group_cells key col k df);
                      Ok (<[key := k]> (set_cell col v ∅)))
                (group_keys key df);
      Ok (mkDF [key; col] rs)
    else Err (KeyError col)
  else Err (KeyError key).

(** ** Left join *)

(** Non-key labels present on both sides; pandas tells them apart with the
    suffixes [_x] and [_y]. *)
Definition overlap (key : string) (lcols rcols : list string) : list string :=
  filter (λ c, c ≠ key ∧ c ∈ rcols) lcols.

Definition suffix_cols (sfx : string) (ov cols : list string) : list string :=
  (λ c, if decide (c ∈ ov) then c +:+ sfx else c) <$> cols.

Definition suffix_row (sfx : string) (ov : list string) (r : row) : row :=
  foldr (λ c m, rename_row c (c +:+ sfx) m) r ov.

(** The rows of the right frame whose key cell equals that of [l]; two
    missing keys match each other. *)
Definition matches (key : string) (l : row) (right : DataFrame) : list row :=
  filter (λ r, r !! key = l !! key) (rows right).

(** [left.merge(right, on=key, how='left')]: every left row is kept, in
    order; it is repeated once per matching right row, and gets missing
    cells for the right columns when nothing matches. *)
Definition merge_left (key : string) (left right : DataFrame) : result DataFrame :=
  if decide (key ∈ columns left) then
    if decide (key ∈ columns right) then
      let ov := overlap key (columns left) (columns right) in
      let rcols := filter (λ c, c ≠ key) (columns right) in
      Ok (mkDF
            (suffix_cols "_x" ov (columns left) ++ suffix_cols "_y" ov rcols)
            (l ← rows left;
             let l' := suffix_row "_x" ov (restrict (columns left) l) in
             match matches key l right with
             | [] => [l']
             | ms => (λ r, l' ∪ suffix_row "_y" ov (restrict rcols r)) <$> ms
             end))
    else Err (KeyError key)
  else Err (KeyError key).

(** ** Dates *)

Definition dt_quarter (t : Timestamp) : Z := ((ts_month t - 1) / 3 + 1)%Z.

(** [series.dt.<field>]: only a datetime series has the accessor. *)
Definition dt (field : Timestamp → Z) (s : list (option value))
  : result (list (option value)) :=
  mapM (λ v, match v with
             | None => Ok None
             | Some (Date t) => Ok (Some (Num (Qc_of_Z (field t))))
             | Some _ =>
               Err (AttributeError
                      "Can only use .dt accessor with datetimelike values")
             end) s.

(** [range(a, b)] as a column of numbers. *)
Definition range (a b : nat) : list (option value) :=
  (λ i, Some (Num (Qc_of_nat i))) <$> seq a (b - a).

(** ** The outside world *)

(** BigQuery load jobs.  A job configuration may ask for a write
    disposition; a job without one appends, and creates the table when it
    does not exist yet. *)
Inductive WriteDisposition := WRITE_APPEND | WRITE_TRUNCATE | WRITE_EMPTY.

Record LoadJobConfig := mkLoadJobConfig {
  write_disposition : option WriteDisposition
}.

Record LoadJob := mkLoadJob {
  job_destination : string;
  job_data : DataFrame;
  job_disposition : WriteDisposition
}.

Inductive bq_event :=
| JobSubmitted (table_id : string) (data : DataFrame)
| JobCompleted (table_id : string).

Global Instance bq_event_eq_dec : EqDecision bq_event.
Proof. solve_decision. Defined.

Record World := mkWorld {
  gcs : gmap (string * string) string;  (* Cloud Storage: (bucket, name) to text *)
  bq_tables : gmap string DataFrame;    (* BigQuery: table id to contents *)
  bq_down : gset string;                (* destinations whose load job fails *)
  bq_log : list bq_event;               (* load jobs, oldest first *)
  stdout : list string                  (* printed lines, oldest first *)
}.

Global Instance World_eq_dec : EqDecision World.
Proof. solve_decision. Defined.

(** State and exceptions: an exception keeps the effects made so far. *)
Definition M (A : Type) : Type := World → World * result A.

Global Instance M_ret : MRet M := λ A a w, (w, Ok a).
Global Instance M_bind : MBind M := λ A B f m w,
  match m w with
  | (w', Ok a) => f a w'
  | (w', Err e) => (w', Err e)
  end.

Definition lift {A} (r : result A) : M A := λ w, (w, r).

Definition print (line : string) : M unit := λ w,
  (mkWorld (gcs w) (bq_tables w) (bq_down w) (bq_log w) (stdout w ++ [line]),
   Ok ()).

(** [try: body except Exception as e: handler(e)]. *)
Definition try_except {A} (body : M A) (handler : exn → M A) : M A := λ w,
  match body w with
  | (w', Ok a) => (w', Ok a)
  | (w', Err e) => handler e w'
  end.

Fixpoint for_each {A} (xs : list A) (body : A → M unit) : M unit :=
  match xs with
  | [] => mret ()
  | x :: xs' => body x;; for_each xs' body
  end.

(** [blob.download_as_text()]. *)
Definition download_as_text (bucket_name file_name : string) : M string := λ w,
  match gcs w !! (bucket_name, file_name) with
  | Some text => (w, Ok text)
  | None => (w, Err (NotFound file_name))
  end.

(** [client.load_table_from_dataframe(data, table_id, job_config)]. *)
Definition load_table_from_dataframe (data : DataFrame) (table_id : string)
  (job_config : option LoadJobConfig) : M LoadJob := λ w,
  (mkWorld (gcs w) (bq_tables w) (bq_down w)
           (bq_log w ++ [JobSubmitted table_id data]) (stdout w),
   Ok (mkLoadJob table_id data
         (default WRITE_APPEND (job_config ≫= write_disposition)))).

(** What a finished load job leaves in the destination. *)
Definition loaded (job : LoadJob) (old : option DataFrame) : result DataFrame :=
  match old with
  | None => Ok (job_data job)
  | Some t =>
    match job_disposition job with
    | WRITE_TRUNCATE => Ok (job_data job)
    | WRITE_APPEND =>
      if decide (columns t = columns (job_data job))
      then Ok (mkDF (columns t) (rows t ++ rows (job_data job)))
      else Err (BadRequest "Provided Schema does not match Table")
    | WRITE_EMPTY =>
      if decide (rows t = []) then Ok (job_data job)
      else Err (BadRequest "Already Exists")
    end
  end.

(** [job.result()]: waits for the job; its failure is raised here. *)
Definition job_result (job : LoadJob) : M unit := λ w,
  if decide (job_destination job ∈ bq_down w)
  then (w, Err (ServiceUnavailable (job_destination job)))
  else
    match loaded job (bq_tables w !! job_destination job) with
    | Err e => (w, Err e)
    | Ok t =>
      (mkWorld (gcs w) (<[job_destination job := t]> (bq_tables w)) (bq_down w)
               (bq_log w ++ [JobCompleted (job_destination job)]) (stdout w),
       Ok ())
    end.

(** ** The pipeline *)

Record Tables := mkTables {
  customer_dim : DataFrame;
  product_dim : DataFrame;
  order_dim : DataFrame;
  time_dim : DataFrame;
  sales_fact : DataFrame
}.

Global Instance Tables_eq_dec : EqDecision Tables.
Proof. solve_decision. Defined.

Definition dataset_id : string := "data-mining-assignment-442318.etl_output".

Definition customer_columns : list string :=
  ["Customer ID"; "Customer Name"; "Segment"; "Country";
   "City"; "State"; "Postal Code"].

Definition product_columns : list string :=
  ["Product ID"; "Product Name"; "Category"; "Sub-Category"].

Definition order_columns : list string :=
  ["Order ID"; "Order Date"; "Ship Mode"].

Definition fact_source_columns : list string :=
  ["Order ID"; "Product ID"; "Customer ID"; "Order Date"; "Region";
   "Sales"; "Quantity"; "Discount"; "Profit"].

Definition fact_columns : list string :=
  ["Sale ID"; "Order ID"; "Product ID"; "Customer ID"; "Date";
   "Sales"; "Quantity"; "Discount"; "Profit";
   "customers.SUM(sales.Sales)"; "customers.MAX(sales.Quantity)";
   "products.SUM(sales.Sales)"; "products.MEAN(sales.Sales)"].

Section Pipeline.

(** The scalar parser behind [pd.to_datetime]; [None] is a parse failure. *)
Variable parse_datetime : value → option Timestamp.

(** [pd.read_csv] on the downloaded text. *)
Variable read_csv : string → result DataFrame.

(** [pd.to_datetime(series)]: missing cells become NaT. *)
Definition to_datetime (s : list (option value))
  : result (list (option value)) :=
  mapM (λ v, match v with
             | None => Ok None
             | Some (Date t) => Ok (Some (Date t))
             | Some x =>
               match parse_datetime x with
               | Some t => Ok (Some (Date t))
               | None => Err (ValueError "Unknown datetime string format")
               end
             end) s.

(** Lines 21 to 89: feature engineering and the star schema. *)
Definition build_tables (df : DataFrame) : M Tables :=
  print "Starting feature engineering...";;
  customer_sales ← lift (groupby_agg "Customer ID" "Sales" agg_sum df);
  let customer_sales :=
    rename "Sales" "customers.SUM(sales.Sales)" customer_sales in
  customer_max_quantity ←
    lift (groupby_agg "Customer ID" "Quantity" agg_max df);
  let customer_max_quantity :=
    rename "Quantity" "customers.MAX(sales.Quantity)" customer_max_quantity in
  product_sales ← lift (groupby_agg "Product ID" "Sales" agg_sum df);
  let product_sales :=
    rename "Sales" "products.SUM(sales.Sales)" product_sales in
  product_avg_sales ← lift (groupby_agg "Product ID" "Sales" agg_mean df);
  let product_avg_sales :=
    rename "Sales" "products.MEAN(sales.Sales)" product_avg_sales in
  print "Feature engineering process completed";;
  print "Creating star schema";;
  print "Creating customer dimension table...";;
  customer_dim ← lift (d ← select customer_columns df;
                        d ← drop_duplicates (Some ["Customer ID"]) d;
                        Ok (reset_index d));
  print "Creating product dimension table...";;
  product_dim ← lift (d ← select product_columns df;
                        d ← drop_duplicates (Some ["Product ID"]) d;
                        Ok (reset_index d));
  print "Creating order dimension table...";;
  order_dim ← lift (d ← select order_columns df;
                        d ← drop_duplicates (Some ["Order ID"]) d;
                        Ok (reset_index d));
  print "Creating time dimension table...";;
  df ← lift (s ← getitem "Order Date" df;
             s ← to_datetime s;
             setitem "Order Date" s df);
  time_dim ← lift (d ← select ["Order Date"] df;
                    d ← drop_duplicates None d;
                    Ok (reset_index d));
  time_dim ← lift (s ← getitem "Order Date" time_dim;
                   s ← dt ts_day s;
                   setitem "Day" s time_dim);
  time_dim ← lift (s ← getitem "Order Date" time_dim;
                   s ← dt ts_month s;
                   setitem "Month" s time_dim);
  time_dim ← lift (s ← getitem "Order Date" time_dim;
                   s ← dt dt_quarter s;
                   setitem "Quarter" s time_dim);
  time_dim ← lift (s ← getitem "Order Date" time_dim;
                   s ← dt ts_year s;
                   setitem "Year" s time_dim);
  let time_dim := rename "Order Date" "Date" time_dim in
  print "Creating sales fact table...";;
  sales_fact ← lift (select fact_source_columns df);
  sales_fact ← lift (setitem "Sale ID"
                       (range 1 (length (rows sales_fact) + 1)) sales_fact);
  let sales_fact := rename "Order Date" "Date" sales_fact in
  sales_fact ← lift (merge_left "Customer ID" sales_fact customer_sales);
  sales_fact ← lift (merge_left "Customer ID" sales_fact customer_max_quantity);
  sales_fact ← lift (merge_left "Product ID" sales_fact product_sales);
  sales_fact ← lift (merge_left "Product ID" sales_fact product_avg_sales);
  sales_fact ← lift (select fact_columns sales_fact);
  print "Sales fact table created successfully";;
  mret (mkTables customer_dim product_dim order_dim time_dim sales_fact).

(** Lines 91 to 110: the load loop over the [tables] dictionary, in its
    insertion order. *)
Definition tables_dict (t : Tables) : list (string * DataFrame) :=
  [("customer_dim", customer_dim t);
   ("product_dim", product_dim t);
   ("order_dim", order_dim t);
   ("time_dim", time_dim t);
   ("sales_fact", sales_fact t)].

Definition table_id_of (table_name : string) : string :=
  dataset_id +:+ "." +:+ table_name.

Definition load_one (item : string * DataFrame) : M unit :=
  let table_id := table_id_of item.1 in
  print ("Loading " +:+ item.1 +:+ " to " +:+ table_id +:+ "...");;
  job ← load_table_from_dataframe item.2 table_id None;
  job_result job;;
  print ("Table " +:+ item.1 +:+ " loaded successfully.").

Definition load_tables (t : Tables) : M unit :=
  print "Loading data into BigQuery...";;
  for_each (tables_dict t) load_one;;
  print "ETL process complete.".

(** [event[k]] on the trigger's dictionary. *)
Definition event_get (event : gmap string string) (k : string) : M string :=
  lift (match event !! k with
        | Some v => Ok v
        | None => Err (KeyError k)
        end).

(** The body of the [try] block. *)
Definition etl_body (event : gmap string string) : M unit :=
  bucket_name ← event_get event "bucket";
  file_name ← event_get event "name";
  data ← download_as_text bucket_name file_name;
  df ← lift (read_csv data);
  tables ← build_tables df;
  load_tables tables.

Definition etl_pipeline (event : gmap string string) : M unit :=
  try_except (etl_body event)
    (λ e, print ("An error occurred during the ETL process: "
                 +:+ exn_message e)).

(** *** The stages, one by one

    The same steps as in [build_tables], cut where the program's comments
    cut them.  [build_tables_Ok] below shows that a successful run is
    exactly a success of each of them. *)

Definition dimension (cols : list string) (key : string) (df : DataFrame)
  : result DataFrame :=
  d ← select cols df;
  d ← drop_duplicates (Some [key]) d;
  Ok (reset_index d).

Definition with_parsed_dates (df : DataFrame) : result DataFrame :=
  s ← getitem "Order Date" df;
  s ← to_datetime s;
  setitem "Order Date" s df.

Definition with_field (name : string) (field : Timestamp → Z)
  (t : DataFrame) : result DataFrame :=
  s ← getitem "Order Date" t;
  s ← dt field s;
  setitem name s t.

Definition unique_dates (df : DataFrame) : result DataFrame :=
  d ← select ["Order Date"] df;
  d ← drop_duplicates None d;
  Ok (reset_index d).

Definition time_dimension (df : DataFrame) : result DataFrame :=
  t ← unique_dates df;
  t ← with_field "Day" ts_day t;
  t ← with_field "Month" ts_month t;
  t ← with_field "Quarter" dt_quarter t;
  t ← with_field "Year" ts_year t;
  Ok (rename "Order Date" "Date" t).

Definition numbered_facts (df : DataFrame) : result DataFrame :=
  f ← select fact_source_columns df;
  f ← setitem "Sale ID" (range 1 (length (rows f) + 1)) f;
  Ok (rename "Order Date" "Date" f).

Definition fact_table (df customer_sales customer_max_quantity
                       product_sales product_avg_sales : DataFrame)
  : result DataFrame :=
  f ← numbered_facts df;
  f ← merge_left "Customer ID" f customer_sales;
  f ← merge_left "Customer ID" f customer_max_quantity;
  f ← merge_left "Product ID" f product_sales;
  f ← merge_left "Product ID" f product_avg_sales;
  select fact_columns f.

End Pipeline.

(** ** Reference computations

    The aggregates recomputed from the raw table directly, by one pass over
    its rows: the numbers found in column [col] on the rows whose [key]
    cell is [k]. *)
Definition numbers_where (key : string) (k : value) (col : string)
  (df : DataFrame) : list Qc :=
  omap (λ r : row,
          if decide (r !! key = Some k) then
            match r !! col with
            | Some (Num q) => Some q
            | _ => None
            end
          else None)
       (rows df).

(** ** Relations used in the proofs *)

(** What the renamed result of a [groupby] looks like: one row per group
    key, holding the key and the aggregate of the group's cells. *)
Definition aggregate_of (key col new : string)
  (agg : list (option value) → result (option value))
  (df t : DataFrame) : Prop :=
  columns t = [key; new] ∧
  Forall2 (λ k r, r !! key = Some k ∧
                  agg (group_cells key col k df) = Ok (r !! new))
          (group_keys key df) (rows t).

(** The row a left row becomes when at most one right row matches it. *)
Definition joined (key : string) (left right : DataFrame) (l : row) : row :=
  restrict (columns left) l ∪
  from_option (restrict (filter (λ c, c ≠ key) (columns right))) ∅
              (head (matches key l right)).

Definition kept_columns : list string :=
  ["Sale ID"; "Order ID"; "Product ID"; "Customer ID"; "Date";
   "Sales"; "Quantity"; "Discount"; "Profit"].

(** How a row [x] of the fact table relates to the numbered row [l] it
    comes from, the aggregates being those of the raw table [df]. *)
Definition fact_row (df : DataFrame) (l x : row) : Prop :=
  (∀ c, c ∈ kept_columns → x !! c = l !! c) ∧
  (∀ k, l !! "Customer ID" = Some k → k ∈ group_keys "Customer ID" df →
        agg_sum (group_cells "Customer ID" "Sales" k df)
          = Ok (x !! "customers.SUM(sales.Sales)") ∧
        agg_max (group_cells "Customer ID" "Quantity" k df)
          = Ok (x !! "customers.MAX(sales.Quantity)")) ∧
  (∀ k, l !! "Product ID" = Some k → k ∈ group_keys "Product ID" df →
        agg_sum (group_cells "Product ID" "Sales" k df)
          = Ok (x !! "products.SUM(sales.Sales)") ∧
        agg_mean (group_cells "Product ID" "Sales" k df)
          = Ok (x !! "products.MEAN(sales.Sales)")).

(** How a row [x] of the fact table relates to the raw row [r] at the same
    position. *)
Definition fact_of (df : DataFrame) (r x : row) : Prop :=
  x !! "Customer ID" = r !! "Customer ID" ∧
  x !! "Product ID" = r !! "Product ID" ∧
  (∀ k, r !! "Customer ID" = Some k →
        x !! "customers.SUM(sales.Sales)"
          = Some (Num (total (numbers_where "Customer ID" k "Sales" df))) ∧
        x !! "customers.MAX(sales.Quantity)"
          = match numbers_where "Customer ID" k "Quantity" df with
            | [] => None
            | q :: qs => Some (Num (foldl Qcmax q qs))
            end ∧
        numeric (group_cells "Customer ID" "Quantity" k df)
          = Ok (numbers_where "Customer ID" k "Quantity" df)) ∧
  (∀ k, r !! "Product ID" = Some k →
        x !! "products.SUM(sales.Sales)"
          = Some (Num (total (numbers_where "Product ID" k "Sales" df))) ∧
        x !! "products.MEAN(sales.Sales)"
          = match numbers_where "Product ID" k "Sales" df with
            | [] => None
            | _ :: _ =>
              Some (Num (Qcdiv
                           (total (numbers_where "Product ID" k "Sales" df))
                           (Qc_of_nat
                              (length (numbers_where "Product ID" k "Sales" df)))))
            end ∧
        numeric (group_cells "Product ID" "Sales" k df)
          = Ok (numbers_where "Product ID" k "Sales" df)).

(** What it means for [dim] to be the dimension of [raw] keyed by [key]
    with the columns [cols]: no key twice, every raw key present, and each
    row is the projection of the first raw row that carries its key. *)
Definition dimension_of (key : string) (cols : list string)
  (raw dim : DataFrame) : Prop :=
  columns dim = cols ∧
  NoDup ((λ d : row, d !! key) <$> rows dim) ∧
  (∀ r : row, r ∈ rows raw →
     r !! key ∈ (λ d : row, d !! key) <$> rows dim) ∧
  (∀ d : row, d ∈ rows dim →
     ∃ r : row,
       head (filter (λ r : row, r !! key = d !! key) (rows raw)) = Some r ∧
       d = restrict cols r).

(** The calendar fields a [.dt] accessor reads off a cell. *)
Definition field_cell (field : Timestamp → Z) (v v' : option value) : Prop :=
  match v with
  | None => v' = None
  | Some (Date ts) => v' = Some (Num (Qc_of_Z (field ts)))
  | Some _ => False
  end.

(** A row of the time dimension: its four derived cells are the calendar
    components of its own date, the quarter being [(month - 1) / 3 + 1];
    the row of the missing date, if any, has them missing. *)
Definition calendar_row (d : row) : Prop :=
  match d !! "Date" with
  | Some (Date ts) =>
    d !! "Day" = Some (Num (Qc_of_Z (ts_day ts))) ∧
    d !! "Month" = Some (Num (Qc_of_Z (ts_month ts))) ∧
    d !! "Quarter" = Some (Num (Qc_of_Z ((ts_month ts - 1) / 3 + 1))) ∧
    d !! "Year" = Some (Num (Qc_of_Z (ts_year ts)))
  | Some _ => False
  | None =>
    d !! "Day" = None ∧ d !! "Month" = None ∧
    d !! "Quarter" = None ∧ d !! "Year" = None
  end.

(** The columns the raw table must have. *)
Definition required_columns : list string :=
  ["Customer ID"; "Customer Name"; "Segment"; "Country"; "City"; "State";
   "Postal Code"; "Product ID"; "Product Name"; "Category"; "Sub-Category";
   "Order ID"; "Order Date"; "Ship Mode"; "Region"; "Sales"; "Quantity";
   "Discount"; "Profit"].

(** A computation that leaves Cloud Storage and BigQuery as they are; it
    may print. *)
Definition quiet {A} (m : M A) : Prop :=
  ∀ w, gcs (m w).1 = gcs w ∧ bq_tables (m w).1 = bq_tables w ∧
       bq_down (m w).1 = bq_down w ∧ bq_log (m w).1 = bq_log w.


(** What a destination holds after a load job without a write disposition:
    the data itself when the table is new, the old rows followed by the
    new ones when it exists. *)
Definition appended (old : option DataFrame) (data : DataFrame) : DataFrame :=
  match old with
  | None => data
  | Some t => mkDF (columns t) (rows t ++ rows data)
  end.

(** The two events one table of the dictionary leaves in the job log. *)
Definition job_events (item : string * DataFrame) : list bq_event :=
  [JobSubmitted (table_id_of item.1) item.2; JobCompleted (table_id_of item.1)].

(** ** Instances for the examples

    A date parser for [YYYY-MM-DD] texts and a reader for plain
    comma-separated text (no quoting; an empty cell is missing, a decimal
    numeral is a number, anything else is text).  They instantiate the two
    parameters of the pipeline in the examples below; the theorems hold for
    every parser and every reader. *)

Definition digit (a : Ascii.ascii) : option Z :=
  let n := (Z.of_N (Ascii.N_of_ascii a) - 48)%Z in
  if decide (0 ≤ n ≤ 9)%Z then Some n else None.

Fixpoint digits (acc : Z) (s : string) : option Z :=
  match s with
  | EmptyString => Some acc
  | String a s' => d ← digit a; digits (10 * acc + d) s'
  end.

Definition dash : Ascii.ascii := Ascii.ascii_of_nat 45.
Definition dot : Ascii.ascii := Ascii.ascii_of_nat 46.
Definition comma : Ascii.ascii := Ascii.ascii_of_nat 44.
Definition newline : Ascii.ascii := Ascii.ascii_of_nat 10.

Definition parse_iso_date (v : value) : option Timestamp :=
  match v with
  | Str (String y1 (String y2 (String y3 (String y4 (String s1
      (String m1 (String m2 (String s2
        (String d1 (String d2 EmptyString)))))))))) =>
    if decide (s1 = dash ∧ s2 = dash) then
      y ← digits 0 (String y1 (String y2 (String y3 (String y4 EmptyString))));
      m ← digits 0 (String m1 (String m2 EmptyString));
      d ← digits 0 (String d1 (String d2 EmptyString));
      Some (mkTimestamp y m d 0)
    else None
  | _ => None
  end.

Fixpoint split_on (sep : Ascii.ascii) (s : string) : list string :=
  match s with
  | EmptyString => [EmptyString]
  | String a s' =>
    if decide (a = sep) then EmptyString :: split_on sep s'
    else match split_on sep s' with
         | [] => [String a EmptyString]
         | x :: xs => String a x :: xs
         end
  end.

Definition parse_number (s : string) : option Qc :=
  match split_on dot s with
  | [i] => Qc_of_Z <$> digits 0 i
  | [i; f] =>
    n ← digits 0 (i +:+ f);
    Some (Q2Qc (n # Pos.pow 10 (Pos.of_nat (String.length f))))
  | _ => None
  end.

Definition parse_cell (s : string) : option value :=
  if decide (s = "") then None
  else match parse_number s with
       | Some q => Some (Num q)
       | None => Some (Str s)
       end.

Definition read_plain_csv (text : string) : result DataFrame :=
  match filter (λ l, l ≠ "") (split_on newline text) with
  | [] => Err (ParserError "No columns to parse from file")
  | header :: lines =>
    let cols := split_on comma header in
    Ok (mkDF cols
          ((λ l, foldr (λ cv r, set_cell cv.1 (parse_cell cv.2) r) ∅
                       (zip cols (split_on comma l))) <$> lines))
  end.

Definition sample_text : string :=
  "Order ID,Order Date,Ship Mode,Customer ID,Customer Name,Segment,Country,City,State,Postal Code,Region,Product ID,Category,Sub-Category,Product Name,Sales,Quantity,Discount,Profit
o1,2024-03-15,Standard,c2,Ann,Consumer,US,Austin,Texas,73301,Central,p1,Office,Paper,Notes,10.5,2,0,3.25
o1,2024-03-15,Standard,c1,Bob,Corporate,US,Boston,Massachusetts,2101,East,p2,Office,Binders,Folder,,,0.2,
o2,2024-11-02,Express,c2,Ann,Consumer,US,Austin,Texas,73301,Central,p1,Office,Paper,Notes,7,3,0,1.5
".

Definition sample_df : DataFrame :=
  match read_plain_csv sample_text with
  | Ok df => df
  | Err _ => mkDF [] []
  end.

Definition sample_event : gmap string string :=
  {[ "bucket" := "sales-bucket"; "name" := "orders.csv" ]}.

Definition sample_world : World :=
  mkWorld {[ ("sales-bucket", "orders.csv") := sample_text ]} ∅ ∅ [] [].

Definition sample_run : World * result Tables :=
  build_tables parse_iso_date sample_df sample_world.

Definition sample_tables : Tables :=
  match sample_run.2 with
  | Ok t => t
  | Err _ => mkTables (mkDF [] []) (mkDF [] []) (mkDF [] []) (mkDF [] [])
                      (mkDF [] [])
  end.


(** The sample file without its [Discount] column. *)
Definition short_text : string :=
  "Order ID,Customer ID,Sales
o1,c1,4
".

Definition short_df : DataFrame :=
  match read_plain_csv short_text with
  | Ok df => df
  | Err _ => mkDF [] []
  end.

Definition short_world : World :=
  mkWorld {[ ("sales-bucket", "orders.csv") := short_text ]} ∅ ∅ [] [].

(** The sample file handled once, and once more. *)
Definition after_first_run : World :=
  (etl_pipeline parse_iso_date read_plain_csv sample_event sample_world).1.

Definition after_second_run : World :=
  (etl_pipeline parse_iso_date read_plain_csv sample_event after_first_run).1.

Definition sales_fact_id : string :=
  "data-mining-assignment-442318.etl_output.sales_fact".

(** ** Further relations *)

(** The columns of the raw table the fact table carries unchanged. *)
Definition carried_columns : list string :=
  ["Order ID"; "Product ID"; "Customer ID"; "Sales"; "Quantity"; "Discount";
   "Profit"].

(** A cell a [groupby] aggregate can digest: missing, or a number. *)
Definition numeric_cell (v : option value) : Prop :=
  match v with
  | None | Some (Num _) => True
  | Some _ => False
  end.

(** A cell [pd.to_datetime] accepts: missing, a date already, or a value
    the parser understands. *)
Definition parseable (parse_datetime : value → option Timestamp)
  (v : option value) : Prop :=
  match v with
  | None | Some (Date _) => True
  | Some x => is_Some (parse_datetime x)
  end.

(** What the raw table has to satisfy for the build to go through: the
    required columns, numbers (or nothing) under [Sales] and [Quantity] on
    the rows that belong to a group, and order dates that parse. *)
Definition well_formed (parse_datetime : value → option Timestamp)
  (df : DataFrame) : Prop :=
  (∀ c, c ∈ required_columns → c ∈ columns df) ∧
  (∀ r : row, r ∈ rows df →
     (is_Some (r !! "Customer ID") →
      numeric_cell (r !! "Sales") ∧ numeric_cell (r !! "Quantity")) ∧
     (is_Some (r !! "Product ID") → numeric_cell (r !! "Sales")) ∧
     parseable parse_datetime (r !! "Order Date")).

(** The cell [pd.to_datetime] makes of a cell, when it accepts it. *)
Definition parsed_cell (parse_datetime : value → option Timestamp)
  (v : option value) : option value :=
  match v with
  | None => None
  | Some (Date t) => Some (Date t)
  | Some x => Date <$> parse_datetime x
  end.

(** A cell of a datetime column: missing, or a date. *)
Definition date_cell (v : option value) : Prop :=
  match v with
  | None | Some (Date _) => True
  | Some _ => False
  end.

(** A computation that never writes to Cloud Storage. *)
Definition storage_preserving {A} (m : M A) : Prop :=
  ∀ w, gcs (m w).1 = gcs w.





Global Instance numeric_cell_dec (v : option value) : Decision (numeric_cell v).
Proof. destruct v as [[]|]; simpl; apply _. Defined.

Global Instance parseable_dec (parse_datetime : value → option Timestamp)
  (v : option value) : Decision (parseable parse_datetime v).
Proof. destruct v as [[]|]; simpl; apply _. Defined.

(** ** Further sample files *)

(** The first data row of the sample and the fact row made of it. *)
Definition sample_raw_row : row := default ∅ (rows sample_df !! 0).

Definition sample_first_fact : row :=
  default ∅ (rows (sales_fact sample_tables) !! 0).

(** The header of the sample file alone. *)
Definition header_text : string :=
  "Order ID,Order Date,Ship Mode,Customer ID,Customer Name,Segment,Country,City,State,Postal Code,Region,Product ID,Category,Sub-Category,Product Name,Sales,Quantity,Discount,Profit
".

Definition header_df : DataFrame :=
  match read_plain_csv header_text with
  | Ok df => df
  | Err _ => mkDF [] [∅]
  end.




(** The sample world with the destination of [order_dim] unavailable. *)
Definition down_world : World :=
  mkWorld (gcs sample_world) ∅ {[ table_id_of "order_dim" ]} [] [].

Definition before_order_dim : list (string * DataFrame) :=
  [("customer_dim", customer_dim sample_tables);
   ("product_dim", product_dim sample_tables)].

Definition after_order_dim : list (string * DataFrame) :=
  [("time_dim", time_dim sample_tables);
   ("sales_fact", sales_fact sample_tables)].

(** * Verification *)

(** ** Rows *)

Lemma lookup_set_cell (c c' : string) (v : option value) (r : row) :
  set_cell c v r !! c' = if decide (c = c') then v else r !! c'.
Proof.
  unfold set_cell. destruct v as [x|].
  - rewrite lookup_insert. by repeat case_decide.
  - rewrite lookup_delete. by repeat case_decide.
Qed.

Lemma lookup_restrict (cs : list string) (r : row) (c : string) :
  restrict cs r !! c = if decide (c ∈ cs) then r !! c else None.
Proof.
  unfold restrict. rewrite map_lookup_filter.
  destruct (r !! c) as [x|] eqn:E; simpl; [|by case_decide].
  unfold guard. simpl. by repeat case_decide.
Qed.

Lemma lookup_rename_row (old new c : string) (r : row) :
  old ≠ new →
  rename_row old new r !! c =
    if decide (c = new) then r !! old
    else if decide (c = old) then None else r !! c.
Proof.
  intros Hne. unfold rename_row. rewrite decide_False by done.
  rewrite lookup_set_cell, lookup_delete.
  repeat case_decide; congruence.
Qed.

(** ** Inversion of the two monads *)

Lemma result_bind_Ok {A B} (m : result A) (f : A → result B) (b : B) :
  m ≫= f = Ok b → ∃ a, m = Ok a ∧ f a = Ok b.
Proof. destruct m as [a|e]; [by exists a | done]. Qed.

Lemma result_fmap_Ok {A B} (g : A → B) (m : result A) (b : B) :
  g <$> m = Ok b → ∃ a, m = Ok a ∧ b = g a.
Proof. destruct m as [a|e]; [|done]. intros [= <-]. by exists a. Qed.

Lemma mapM_result_Ok {A B} (f : A → result B) (l : list A) (l' : list B) :
  mapM f l = Ok l' → Forall2 (λ x y, f x = Ok y) l l'.
Proof.
  revert l'. induction l as [|x l IH]; intros l' H; simpl in H.
  - injection H as <-. constructor.
  - apply result_bind_Ok in H as (y & Hy & H).
    apply result_bind_Ok in H as (k & Hk & H).
    injection H as <-. constructor; auto.
Qed.

Lemma M_bind_Ok {A B} (m : M A) (f : A → M B) (w w' : World) (b : B) :
  (m ≫= f) w = (w', Ok b) → ∃ a w1, m w = (w1, Ok a) ∧ f a w1 = (w', Ok b).
Proof.
  unfold mbind, M_bind. destruct (m w) as [w1 [a|e]]; [eauto | done].
Qed.

Lemma lift_Ok {A} (r : result A) (w w' : World) (a : A) :
  lift r w = (w', Ok a) → r = Ok a ∧ w' = w.
Proof. unfold lift. by intros [= -> ->]. Qed.

(** ** Group keys and aggregate tables *)

Lemma NoDup_group_keys (key : string) (df : DataFrame) :
  NoDup (group_keys key df).
Proof.
  unfold group_keys. rewrite merge_sort_Permutation. apply NoDup_remove_dups.
Qed.

Lemma elem_of_group_keys (key : string) (df : DataFrame) (k : value) :
  k ∈ group_keys key df ↔ ∃ r, r ∈ rows df ∧ r !! key = Some k.
Proof.
  unfold group_keys.
  rewrite merge_sort_Permutation, elem_of_remove_dups.
  apply list_elem_of_omap.
Qed.

Lemma groupby_agg_rename (key col new : string)
  (agg : list (option value) → result (option value)) (df g : DataFrame) :
  key ≠ col → key ≠ new → col ≠ new →
  groupby_agg key col agg df = Ok g →
  aggregate_of key col new agg df (rename col new g).
Proof.
  intros Hkc Hkn Hcn H. unfold groupby_agg in H.
  repeat case_decide; try done.
  apply result_bind_Ok in H as (rs & Hrs & [= <-]).
  apply mapM_result_Ok in Hrs.
  unfold rename, aggregate_of; simpl.
  rewrite decide_True by set_solver. simpl.
  rewrite decide_False by done. rewrite decide_True by done.
  split; [done|].
  apply Forall2_fmap_r.
  eapply Forall2_impl; [exact Hrs|].
  intros k r Hr. simpl in Hr.
  apply result_bind_Ok in Hr as (v & Hv & [= <-]).
  unfold compose. rewrite !lookup_rename_row by done.
  rewrite decide_False by done. rewrite decide_False by done.
  rewrite decide_True by done.
  rewrite lookup_insert_eq.
  rewrite lookup_insert_ne by done. rewrite lookup_set_cell.
  by rewrite decide_True by done.
Qed.

Lemma groupby_agg_columns (key col : string)
  (agg : list (option value) → result (option value)) (df g : DataFrame) :
  groupby_agg key col agg df = Ok g → key ∈ columns df ∧ col ∈ columns df.
Proof. unfold groupby_agg. by repeat case_decide. Qed.

Lemma aggregate_of_keys key col new agg df t :
  aggregate_of key col new agg df t →
  (λ r : row, r !! key) <$> rows t = Some <$> group_keys key df.
Proof.
  intros [_ H]. induction H as [|k r ks rs [Hk _] _ IH]; [done|].
  rewrite !fmap_cons. by rewrite Hk, IH.
Qed.

Lemma aggregate_of_NoDup key col new agg df t :
  aggregate_of key col new agg df t →
  NoDup ((λ r : row, r !! key) <$> rows t).
Proof.
  intros H. rewrite (aggregate_of_keys _ _ _ _ _ _ H).
  apply NoDup_fmap; [apply _ | apply NoDup_group_keys].
Qed.

(** ** Left join against a table with one row per key *)

Lemma filter_none {A} (P : A → Prop) `{∀ x, Decision (P x)} (l : list A) :
  (∀ x, x ∈ l → ¬ P x) → filter P l = [].
Proof.
  induction l as [|a l IH]; intros Hl; [done|].
  rewrite filter_cons, decide_False by (apply Hl; left).
  apply IH. intros x Hx. apply Hl. by right.
Qed.

Lemma filter_unique {A B} `{EqDecision B} (f : A → B) (y : B) (l : list A) :
  NoDup (f <$> l) → length (filter (λ x, f x = y) l) ≤ 1.
Proof.
  induction l as [|a l IH]; [simpl; lia|].
  rewrite fmap_cons, NoDup_cons. intros [Hnotin Hnd].
  rewrite filter_cons. case_decide as Ha; [|auto].
  assert (filter (λ x, f x = y) l = []) as ->; [|simpl; lia].
  apply filter_none. intros x Hx Hfx.
  apply Hnotin. rewrite Ha, <- Hfx. by apply list_elem_of_fmap_2.
Qed.

Lemma suffix_cols_nil (sfx : string) (cols : list string) :
  suffix_cols sfx [] cols = cols.
Proof.
  unfold suffix_cols. induction cols as [|c cols IH]; [done|].
  rewrite fmap_cons, IH. by rewrite decide_False by set_solver.
Qed.

Lemma merge_left_unique (key : string) (left right m : DataFrame) :
  overlap key (columns left) (columns right) = [] →
  NoDup ((λ r : row, r !! key) <$> rows right) →
  merge_left key left right = Ok m →
  m = mkDF (columns left ++ filter (λ c, c ≠ key) (columns right))
           (joined key left right <$> rows left).
Proof.
  intros Hov Hnd H. unfold merge_left in H.
  repeat case_decide; try done. injection H as <-.
  rewrite Hov, !suffix_cols_nil. f_equal. simpl.
  induction (rows left) as [|l ls IH]; [done|].
  rewrite bind_cons, fmap_cons, IH. f_equal.
  assert (length (matches key l right) ≤ 1) as Hlen
    by (by apply filter_unique).
  unfold joined.
  destruct (matches key l right) as [|r [|r' ms]]; simpl in *.
  - by rewrite (right_id_L ∅ (∪)).
  - done.
  - lia.
Qed.

Lemma merge_left_length (key : string) (left right m : DataFrame) :
  overlap key (columns left) (columns right) = [] →
  NoDup ((λ r : row, r !! key) <$> rows right) →
  merge_left key left right = Ok m →
  length (rows m) = length (rows left).
Proof.
  intros Hov Hnd H. rewrite (merge_left_unique _ _ _ _ Hov Hnd H). simpl.
  by rewrite length_fmap.
Qed.

(** The cells of a joined row: the left cells are kept, and the aggregate
    column holds the aggregate of the row's own group. *)
Lemma joined_left (key c : string) (left right : DataFrame) (l : row) :
  c ∈ columns left → (c = key ∨ c ∉ columns right) →
  joined key left right l !! c = l !! c.
Proof.
  intros Hc Hr. unfold joined.
  rewrite lookup_union, lookup_restrict, decide_True by done.
  destruct (head (matches key l right)) as [r|]; simpl.
  - rewrite lookup_restrict, decide_False; [by destruct (l !! c)|].
    rewrite list_elem_of_filter. naive_solver.
  - rewrite lookup_empty. by destruct (l !! c).
Qed.

Lemma head_matches_aggregate key col new agg df t (l : row) :
  aggregate_of key col new agg df t →
  match l !! key with
  | Some k =>
    k ∈ group_keys key df →
    ∃ r, head (matches key l t) = Some r ∧
         agg (group_cells key col k df) = Ok (r !! new)
  | None => head (matches key l t) = None
  end.
Proof.
  intros [_ H]. unfold matches.
  induction H as [|k r ks rs [Hk Hv] _ IH].
  - destruct (l !! key); [by rewrite elem_of_nil | done].
  - rewrite filter_cons. destruct (l !! key) as [k'|] eqn:E.
    + case_decide as Hkk.
      * intros _. exists r. split; [done|]. congruence.
      * rewrite elem_of_cons. intros [->|Hin]; [congruence | auto].
    + rewrite decide_False by congruence. done.
Qed.

Lemma joined_aggregate key col new agg df left t (l : row) (k : value) :
  aggregate_of key col new agg df t →
  key ≠ new → new ∉ columns left →
  l !! key = Some k → k ∈ group_keys key df →
  agg (group_cells key col k df) = Ok (joined key left t l !! new).
Proof.
  intros Ht Hkn Hnew Hk Hin.
  pose proof (head_matches_aggregate key col new agg df t l Ht) as Hm.
  rewrite Hk in Hm. destruct (Hm Hin) as (r & Hr & Hv).
  unfold joined. rewrite Hr. simpl.
  rewrite lookup_union, !lookup_restrict.
  rewrite decide_False by done.
  destruct Ht as [-> _].
  rewrite decide_True; [by rewrite (left_id_L None (∪))|].
  rewrite list_elem_of_filter. set_solver.
Qed.

(** ** A successful run of [build_tables], stage by stage *)

Lemma print_Ok (line : string) (w w' : World) (u : ()) :
  print line w = (w', Ok u) →
  gcs w' = gcs w ∧ bq_tables w' = bq_tables w ∧ bq_down w' = bq_down w ∧
  bq_log w' = bq_log w.
Proof. unfold print. by intros [= <-]. Qed.

Ltac inv_step H :=
  let Hs := fresh "Hs" in
  lazymatch type of H with
  | (print _ ≫= _) _ = _ =>
    apply M_bind_Ok in H as (_ & ? & _ & H)
  | (lift _ ≫= _) _ = _ =>
    apply M_bind_Ok in H as (? & ? & Hs & H);
    apply lift_Ok in Hs as [Hs ->]
  end;
  cbv beta zeta in H.

Section Stages.

Variable parse_datetime : value → option Timestamp.

Lemma build_tables_Ok (df : DataFrame) (w w' : World) (t : Tables) :
  build_tables parse_datetime df w = (w', Ok t) →
  ∃ g1 g2 g3 g4 df',
    groupby_agg "Customer ID" "Sales" agg_sum df = Ok g1 ∧
    groupby_agg "Customer ID" "Quantity" agg_max df = Ok g2 ∧
    groupby_agg "Product ID" "Sales" agg_sum df = Ok g3 ∧
    groupby_agg "Product ID" "Sales" agg_mean df = Ok g4 ∧
    dimension customer_columns "Customer ID" df = Ok (customer_dim t) ∧
    dimension product_columns "Product ID" df = Ok (product_dim t) ∧
    dimension order_columns "Order ID" df = Ok (order_dim t) ∧
    with_parsed_dates parse_datetime df = Ok df' ∧
    time_dimension df' = Ok (time_dim t) ∧
    fact_table df'
      (rename "Sales" "customers.SUM(sales.Sales)" g1)
      (rename "Quantity" "customers.MAX(sales.Quantity)" g2)
      (rename "Sales" "products.SUM(sales.Sales)" g3)
      (rename "Sales" "products.MEAN(sales.Sales)" g4) = Ok (sales_fact t).
Proof.
  intros H. unfold build_tables in H.
  repeat inv_step H.
  injection H as _ <-. simpl.
  unfold dimension, time_dimension, unique_dates, with_field, fact_table,
    numbered_facts.
  do 5 eexists.
  repeat split; try eassumption;
    repeat match goal with
           | E : ?l = Ok _ |- context [?l] =>
             rewrite E; cbn [mbind result_bind]
           end; done.
Qed.

End Stages.

(** ** Column assignment and zipping *)

Lemma fmap_zip_with_r {A B C} (f : A → B → C) (g : C → B)
  (l : list A) (k : list B) :
  length k = length l → (∀ a b, g (f a b) = b) → g <$> zip_with f l k = k.
Proof.
  intros Hlen Hg. revert k Hlen.
  induction l as [|a l IH]; intros [|b k] Hlen; simplify_eq/=; try done.
  by rewrite Hg, IH.
Qed.

Lemma Forall2_zip_with_l {A B C} (f : A → B → C) (P : A → C → Prop)
  (l : list A) (k : list B) :
  length k = length l → (∀ a b, P a (f a b)) → Forall2 P l (zip_with f l k).
Proof.
  intros Hlen HP. revert k Hlen.
  induction l as [|a l IH]; intros [|b k] Hlen; simplify_eq/=; try done.
  constructor; auto.
Qed.

Lemma mapM_result_length {A B} (f : A → result B) (l : list A) (l' : list B) :
  mapM f l = Ok l' → length l' = length l.
Proof. intros H. symmetry. eapply Forall2_length, mapM_result_Ok, H. Qed.

Lemma setitem_Ok (c : string) (vals : list (option value)) (df d : DataFrame) :
  setitem c vals df = Ok d →
  length vals = length (rows df) ∧
  columns d = (if decide (c ∈ columns df) then columns df
               else columns df ++ [c]) ∧
  rows d = zip_with (λ r v, set_cell c v r) (rows df) vals.
Proof. unfold setitem. case_decide; [|done]. by intros [= <-]. Qed.

Lemma setitem_column (c : string) (vals : list (option value))
  (df d : DataFrame) :
  setitem c vals df = Ok d → (λ r : row, r !! c) <$> rows d = vals.
Proof.
  intros (Hlen & _ & ->)%setitem_Ok.
  apply fmap_zip_with_r; [done|]. intros r v.
  by rewrite lookup_set_cell, decide_True.
Qed.

Lemma setitem_others (c : string) (vals : list (option value))
  (df d : DataFrame) :
  setitem c vals df = Ok d →
  Forall2 (λ r r' : row, ∀ c', c' ≠ c → r' !! c' = r !! c') (rows df) (rows d).
Proof.
  intros (Hlen & _ & ->)%setitem_Ok.
  apply Forall2_zip_with_l; [done|]. intros r v c' Hc'.
  by rewrite lookup_set_cell, decide_False.
Qed.

Lemma getitem_Ok (c : string) (df : DataFrame) (s : list (option value)) :
  getitem c df = Ok s → c ∈ columns df ∧ s = (λ r : row, r !! c) <$> rows df.
Proof. unfold getitem. case_decide; [|done]. by intros [= <-]. Qed.

Lemma select_Ok (cs : list string) (df d : DataFrame) :
  select cs df = Ok d →
  (∀ c, c ∈ cs → c ∈ columns df) ∧ d = mkDF cs (restrict cs <$> rows df).
Proof.
  unfold select, missing.
  destruct (filter _ cs) as [|c l] eqn:E; simpl; [|done].
  intros [= <-]. split; [|done]. intros c Hc.
  destruct (decide (c ∈ columns df)) as [|Hn]; [done|].
  assert (c ∈ filter (λ c, c ∉ columns df) cs) as Hin
    by (by apply list_elem_of_filter).
  rewrite E in Hin. by apply elem_of_nil in Hin.
Qed.

Lemma select_missing (cs : list string) (df : DataFrame) (c : string) :
  c ∈ cs → c ∉ columns df → ∃ e, select cs df = Err e.
Proof.
  intros Hc Hn. destruct (select cs df) as [d|e] eqn:E; [|by eexists].
  apply select_Ok in E as [Hall _]. by destruct Hn; apply Hall.
Qed.

Lemma Forall2_elem_of_r {A B} (P : A → B → Prop) (l : list A) (k : list B)
  (y : B) :
  Forall2 P l k → y ∈ k → ∃ x, x ∈ l ∧ P x y.
Proof.
  induction 1 as [|a b l k Hab _ IH]; intros Hy; [by inversion Hy|].
  apply elem_of_cons in Hy as [->|Hy].
  - exists a. split; [left | done].
  - destruct (IH Hy) as (x & ? & ?). exists x. split; [by right | done].
Qed.

(** ** The fact table *)

Lemma merge_aggregate key col new agg (df left t m : DataFrame) :
  aggregate_of key col new agg df t →
  key ≠ new → new ∉ columns left →
  merge_left key left t = Ok m →
  m = mkDF (columns left ++ [new]) (joined key left t <$> rows left).
Proof.
  intros Ht Hkn Hnew H.
  pose proof Ht as [Hc _].
  assert (overlap key (columns left) (columns t) = []) as Hov.
  { unfold overlap. apply filter_none. intros c Hin [Hck Hct].
    rewrite Hc in Hct. set_solver. }
  rewrite (merge_left_unique _ _ _ _ Hov (aggregate_of_NoDup _ _ _ _ _ _ Ht) H).
  rewrite Hc. rewrite filter_cons, decide_False by naive_solver.
  by rewrite filter_cons, decide_True, filter_nil by done.
Qed.

Lemma numbered_facts_Ok (df f : DataFrame) :
  numbered_facts df = Ok f →
  columns f = ["Order ID"; "Product ID"; "Customer ID"; "Date"; "Region";
               "Sales"; "Quantity"; "Discount"; "Profit"; "Sale ID"] ∧
  (λ l : row, l !! "Sale ID") <$> rows f = range 1 (length (rows df) + 1) ∧
  Forall2 (λ r l : row, l !! "Customer ID" = r !! "Customer ID" ∧
                        l !! "Product ID" = r !! "Product ID")
          (rows df) (rows f).
Proof.
  unfold numbered_facts. intros H.
  apply result_bind_Ok in H as (f0 & [_ ->]%select_Ok & H).
  apply result_bind_Ok in H as (f1 & H1 & [= <-]).
  pose proof (setitem_column _ _ _ _ H1) as Hcol.
  pose proof (setitem_others _ _ _ _ H1) as Hoth.
  apply setitem_Ok in H1 as (Hlen & Hc & Hr). simpl in *.
  rewrite length_fmap in *.
  unfold rename. rewrite Hc. rewrite decide_True by compute_done.
  simpl. split; [done|]. split.
  - rewrite <- list_fmap_compose, <- Hcol.
    apply list_fmap_ext. intros i l _. simpl.
    by rewrite lookup_rename_row.
  - apply Forall2_fmap_r. apply Forall2_fmap_l in Hoth.
    eapply Forall2_impl; [exact Hoth|]. intros r l Hl. simpl in *.
    rewrite !lookup_rename_row by done. simpl.
    rewrite !Hl by done. by rewrite !lookup_restrict.
Qed.

Lemma joined_keep key col new agg (df left t : DataFrame) (l : row) (c : string) :
  aggregate_of key col new agg df t →
  c ∈ columns left → c ≠ new →
  joined key left t l !! c = l !! c.
Proof.
  intros [Hc _] Hin Hne. apply joined_left; [done|].
  rewrite Hc. destruct (decide (c = key)); [by left | right]. set_solver.
Qed.

Lemma Forall2_fmap_self {A B} (f : A → B) (P : A → B → Prop) (l : list A) :
  (∀ x, P x (f x)) → Forall2 P l (f <$> l).
Proof. intros H. induction l; constructor; auto. Qed.

Ltac solve_column :=
  match goal with
  | H : columns ?d = _ |- _ ∈ columns ?d => rewrite H; compute_done
  | H : columns ?d = _ |- _ ∉ columns ?d => rewrite H; compute_done
  end.

Ltac keep_cell Ht :=
  rewrite (joined_keep _ _ _ _ _ _ _ _ _ Ht); [|solve_column|compute_done].

Lemma fact_table_Ok (df df' t1 t2 t3 t4 fact : DataFrame) :
  aggregate_of "Customer ID" "Sales" "customers.SUM(sales.Sales)"
    agg_sum df t1 →
  aggregate_of "Customer ID" "Quantity" "customers.MAX(sales.Quantity)"
    agg_max df t2 →
  aggregate_of "Product ID" "Sales" "products.SUM(sales.Sales)"
    agg_sum df t3 →
  aggregate_of "Product ID" "Sales" "products.MEAN(sales.Sales)"
    agg_mean df t4 →
  fact_table df' t1 t2 t3 t4 = Ok fact →
  ∃ f0, numbered_facts df' = Ok f0 ∧ columns fact = fact_columns ∧
        Forall2 (fact_row df) (rows f0) (rows fact).
Proof.
  intros Ht1 Ht2 Ht3 Ht4 H. unfold fact_table in H.
  apply result_bind_Ok in H as (f0 & Hf0 & H).
  exists f0. split; [done|].
  apply numbered_facts_Ok in Hf0 as (Hc0 & _ & _).
  apply result_bind_Ok in H as (m1 & H1 & H).
  apply (merge_aggregate _ _ _ _ _ _ _ _ Ht1) in H1;
    [|done|rewrite Hc0; compute_done].
  apply result_bind_Ok in H as (m2 & H2 & H).
  apply (merge_aggregate _ _ _ _ _ _ _ _ Ht2) in H2;
    [|done|rewrite H1; simpl; rewrite Hc0; compute_done].
  apply result_bind_Ok in H as (m3 & H3 & H).
  apply (merge_aggregate _ _ _ _ _ _ _ _ Ht3) in H3;
    [|done|rewrite H2, H1; simpl; rewrite Hc0; compute_done].
  apply result_bind_Ok in H as (m4 & H4 & H).
  apply (merge_aggregate _ _ _ _ _ _ _ _ Ht4) in H4;
    [|done|rewrite H3, H2, H1; simpl; rewrite Hc0; compute_done].
  apply select_Ok in H as [_ ->]. simpl. split; [done|].
  assert (columns m1 = columns f0 ++ ["customers.SUM(sales.Sales)"]) as Hc1
    by (by rewrite H1).
  assert (columns m2 = columns m1 ++ ["customers.MAX(sales.Quantity)"]) as Hc2
    by (by rewrite H2).
  assert (columns m3 = columns m2 ++ ["products.SUM(sales.Sales)"]) as Hc3
    by (by rewrite H3).
  rewrite Hc0 in Hc1. simpl in Hc1. rewrite Hc1 in Hc2. simpl in Hc2.
  rewrite Hc2 in Hc3. simpl in Hc3.
  assert (rows m1 = joined "Customer ID" f0 t1 <$> rows f0) as Hr1
    by (by rewrite H1).
  assert (rows m2 = joined "Customer ID" m1 t2 <$> rows m1) as Hr2
    by (by rewrite H2).
  assert (rows m3 = joined "Product ID" m2 t3 <$> rows m2) as Hr3
    by (by rewrite H3).
  assert (rows m4 = joined "Product ID" m3 t4 <$> rows m3) as Hr4
    by (by rewrite H4).
  clear H1 H2 H3 H4. rewrite Hr4, Hr3, Hr2, Hr1.
  rewrite <- !list_fmap_compose.
  apply Forall2_fmap_self. intros l. simpl.
  assert (∀ c, c ∈ columns f0 →
               joined "Product ID" m3 t4
                 (joined "Product ID" m2 t3
                    (joined "Customer ID" m1 t2
                       (joined "Customer ID" f0 t1 l))) !! c = l !! c) as Hkeep.
  { intros c Hc.
    assert (c ∈ columns m1) by (rewrite Hc0 in Hc; rewrite Hc1; set_solver).
    assert (c ∈ columns m2) by (rewrite Hc0 in Hc; rewrite Hc2; set_solver).
    assert (c ∈ columns m3) by (rewrite Hc0 in Hc; rewrite Hc3; set_solver).
    pose proof Hc as Hc'. rewrite Hc0 in Hc'.
    rewrite (joined_keep _ _ _ _ _ _ _ _ c Ht4), (joined_keep _ _ _ _ _ _ _ _ c Ht3),
      (joined_keep _ _ _ _ _ _ _ _ c Ht2), (joined_keep _ _ _ _ _ _ _ _ c Ht1);
      first [ reflexivity | assumption
            | intros ->; revert Hc'; compute_done ]. }
  split; [|split].
  - intros c Hc. rewrite lookup_restrict.
    rewrite decide_True by (revert Hc; unfold kept_columns, fact_columns; set_solver).
    apply Hkeep. rewrite Hc0. revert Hc. unfold kept_columns. set_solver.
  - intros k Hk Hin. rewrite !lookup_restrict.
    rewrite !decide_True by compute_done. split.
    + keep_cell Ht4. keep_cell Ht3. keep_cell Ht2.
      apply (joined_aggregate _ _ _ _ _ _ _ _ k Ht1);
        [compute_done | solve_column | exact Hk | exact Hin].
    + keep_cell Ht4. keep_cell Ht3.
      apply (joined_aggregate _ _ _ _ _ _ _ _ k Ht2);
        [compute_done | solve_column | | exact Hin].
      keep_cell Ht1. exact Hk.
  - intros k Hk Hin. rewrite !lookup_restrict.
    rewrite !decide_True by compute_done. split.
    + keep_cell Ht4.
      apply (joined_aggregate _ _ _ _ _ _ _ _ k Ht3);
        [compute_done | solve_column | | exact Hin].
      keep_cell Ht2. keep_cell Ht1. exact Hk.
    + apply (joined_aggregate _ _ _ _ _ _ _ _ k Ht4);
        [compute_done | solve_column | | exact Hin].
      keep_cell Ht3. keep_cell Ht2. keep_cell Ht1. exact Hk.
Qed.

(** ** Aggregates against the reference computation *)

Lemma numeric_group (key col : string) (k : value) (df : DataFrame)
  (qs : list Qc) :
  numeric (group_cells key col k df) = Ok qs →
  qs = numbers_where key k col df.
Proof.
  unfold group_cells, group_rows, numbers_where.
  revert qs. induction (rows df) as [|r rs IH]; intros qs H.
  - by injection H as <-.
  - rewrite filter_cons in H. revert H. cbn [omap list_omap].
    destruct (decide (r !! key = Some k)) as [Hk|Hk]; [|by apply IH].
    rewrite fmap_cons. cbn [numeric].
    destruct (r !! col) as [[s|q|d]|]; try done; [|by apply IH].
    intros (qs' & Hqs' & ->)%result_fmap_Ok.
    by rewrite <- (IH qs').
Qed.


Lemma agg_sum_Ok (vs : list (option value)) (v : option value) :
  agg_sum vs = Ok v → ∃ qs, numeric vs = Ok qs ∧ v = Some (Num (total qs)).
Proof.
  unfold agg_sum. intros (qs & Hqs & [= <-])%result_bind_Ok. eauto.
Qed.

Lemma agg_max_Ok (vs : list (option value)) (v : option value) :
  agg_max vs = Ok v →
  ∃ qs, numeric vs = Ok qs ∧
        v = match qs with
            | [] => None
            | q :: qs' => Some (Num (foldl Qcmax q qs'))
            end.
Proof.
  unfold agg_max. intros (qs & Hqs & [= <-])%result_bind_Ok. eauto.
Qed.

Lemma agg_mean_Ok (vs : list (option value)) (v : option value) :
  agg_mean vs = Ok v →
  ∃ qs, numeric vs = Ok qs ∧
        v = match qs with
            | [] => None
            | _ :: _ => Some (Num (Qcdiv (total qs) (Qc_of_nat (length qs))))
            end.
Proof.
  unfold agg_mean. intros (qs & Hqs & [= <-])%result_bind_Ok. eauto.
Qed.

(** ** Dropping duplicates *)

Lemma keep_first_elem (cs : list string) (seen : list (list (option value)))
  (rs : list row) (d : row) :
  d ∈ keep_first cs seen rs → d ∈ rs ∧ cells cs d ∉ seen.
Proof.
  revert seen. induction rs as [|r rs IH]; intros seen Hd; simpl in Hd.
  - by apply elem_of_nil in Hd.
  - case_decide as Hr.
    + destruct (IH _ Hd). split; [by right | done].
    + apply elem_of_cons in Hd as [->|Hd]; [split; [left | done]|].
      destruct (IH _ Hd) as [? Hn]. split; [by right|].
      intros ?. apply Hn. by right.
Qed.

Lemma keep_first_NoDup (cs : list string) (seen : list (list (option value)))
  (rs : list row) :
  NoDup (cells cs <$> keep_first cs seen rs).
Proof.
  revert seen. induction rs as [|r rs IH]; intros seen; simpl.
  - constructor.
  - case_decide as Hr; [apply IH|].
    rewrite fmap_cons. constructor; [|apply IH].
    intros (d & Hd & Hin)%list_elem_of_fmap.
    apply keep_first_elem in Hin as [_ Hn]. apply Hn. rewrite <- Hd. left.
Qed.

Lemma keep_first_complete (cs : list string)
  (seen : list (list (option value))) (rs : list row) (r : row) :
  r ∈ rs →
  cells cs r ∈ seen ∨ cells cs r ∈ cells cs <$> keep_first cs seen rs.
Proof.
  revert seen. induction rs as [|r' rs IH]; intros seen Hr; simpl.
  - by apply elem_of_nil in Hr.
  - apply elem_of_cons in Hr as [->|Hr].
    + case_decide; [by left | right]. rewrite fmap_cons. left.
    + case_decide.
      * by apply IH.
      * destruct (IH (cells cs r' :: seen) Hr) as [[->|?]%elem_of_cons|?].
        -- right. rewrite fmap_cons. left.
        -- by left.
        -- right. rewrite fmap_cons. by right.
Qed.

Lemma keep_first_head (cs : list string) (seen : list (list (option value)))
  (rs : list row) (d : row) :
  d ∈ keep_first cs seen rs →
  head (filter (λ r, cells cs r = cells cs d) rs) = Some d.
Proof.
  revert seen. induction rs as [|r rs IH]; intros seen Hd; simpl in Hd.
  - by apply elem_of_nil in Hd.
  - rewrite filter_cons. case_decide as Hr.
    + pose proof (keep_first_elem _ _ _ _ Hd) as [_ Hn].
      rewrite decide_False by congruence. by eapply IH.
    + apply elem_of_cons in Hd as [->|Hd]; [by rewrite decide_True|].
      pose proof (keep_first_elem _ _ _ _ Hd) as [_ Hn].
      rewrite decide_False; [by eapply IH|].
      intros Heq. apply Hn. rewrite Heq. left.
Qed.

Lemma drop_duplicates_Ok (subset : option (list string)) (df d : DataFrame) :
  drop_duplicates subset df = Ok d →
  (∀ c, c ∈ default (columns df) subset → c ∈ columns df) ∧
  d = mkDF (columns df)
           (keep_first (default (columns df) subset) [] (rows df)).
Proof.
  unfold drop_duplicates, missing.
  destruct (filter _ _) as [|c l] eqn:E; simpl; [|done].
  intros [= <-]. split; [|done]. intros c Hc.
  destruct (decide (c ∈ columns df)) as [|Hn]; [done|].
  assert (c ∈ filter (λ c, c ∉ columns df) (default (columns df) subset))
    as Hin by (by apply list_elem_of_filter).
  rewrite E in Hin. by apply elem_of_nil in Hin.
Qed.

Lemma head_filter_fmap {A B} (f : A → B) (P : B → Prop) (Q : A → Prop)
  `{∀ b, Decision (P b)} `{∀ a, Decision (Q a)} (l : list A) :
  (∀ a, P (f a) ↔ Q a) →
  head (filter P (f <$> l)) = f <$> head (filter Q l).
Proof.
  intros HPQ. induction l as [|a l IH]; [done|].
  rewrite fmap_cons, !filter_cons.
  destruct (decide (Q a)) as [Hq|Hq].
  - by rewrite decide_True by (by apply HPQ).
  - by rewrite decide_False by (by rewrite HPQ).
Qed.

Lemma dimension_Ok (cols : list string) (key : string) (df d : DataFrame) :
  dimension cols key df = Ok d → dimension_of key cols df d.
Proof.
  unfold dimension. intros H.
  apply result_bind_Ok in H as (d0 & [_ ->]%select_Ok & H).
  apply result_bind_Ok in H as (d1 & [Hkey ->]%drop_duplicates_Ok & [= <-]).
  simpl in *. assert (key ∈ cols) as Hk by (apply Hkey; left).
  assert (∀ r : row, restrict cols r !! key = r !! key) as Hrk.
  { intros r. by rewrite lookup_restrict, decide_True. }
  assert (∀ a b : row, cells [key] a = cells [key] b ↔ a !! key = b !! key)
    as Hcells.
  { intros a b. unfold cells. simpl. split; [by intros [= ->] | by intros ->]. }
  unfold dimension_of, reset_index. simpl. split; [done|]. split; [|split].
  - pose proof (keep_first_NoDup [key] [] (restrict cols <$> rows df)) as Hnd.
    eapply (NoDup_fmap_1 (λ v : option value, [v])).
    by rewrite <- list_fmap_compose.
  - intros r Hr.
    destruct (keep_first_complete [key] [] (restrict cols <$> rows df)
                (restrict cols r)) as [Hin|Hin].
    { by apply list_elem_of_fmap_2. }
    { by apply elem_of_nil in Hin. }
    apply list_elem_of_fmap in Hin as (d & Hd & Hin).
    apply Hcells in Hd. rewrite Hrk in Hd. rewrite Hd.
    by apply list_elem_of_fmap_2.
  - intros d Hd. apply keep_first_head in Hd.
    rewrite (head_filter_fmap _ _ (λ r : row, r !! key = d !! key)) in Hd.
    + destruct (head _) as [r|] eqn:E; [|done]. injection Hd as <-.
      by exists r.
    + intros a. by rewrite Hcells, Hrk.
Qed.

(** ** The time dimension *)

Lemma dt_Ok (field : Timestamp → Z) (s s' : list (option value)) :
  dt field s = Ok s' → Forall2 (field_cell field) s s'.
Proof.
  intros H%mapM_result_Ok. eapply Forall2_impl; [exact H|].
  intros v v' Hv. unfold field_cell.
  destruct v as [[?|?|ts]|]; simplify_eq/=; done.
Qed.

Lemma Forall2_zip_with_rel {A B C} (f : A → B → C) (g : A → B)
  (Q : B → B → Prop) (P : A → C → Prop) (l : list A) (k : list B) :
  Forall2 Q (g <$> l) k →
  (∀ a b, Q (g a) b → P a (f a b)) →
  Forall2 P l (zip_with f l k).
Proof.
  intros H HP. revert k H.
  induction l as [|a l IH]; intros k H; inversion H; subst; simpl;
    constructor; auto.
Qed.

Lemma with_field_Ok (name : string) (field : Timestamp → Z)
  (t t' : DataFrame) :
  name ≠ "Order Date" →
  with_field name field t = Ok t' →
  columns t' = (if decide (name ∈ columns t) then columns t
                else columns t ++ [name]) ∧
  Forall2 (λ r r' : row,
             (∀ c, c ≠ name → r' !! c = r !! c) ∧
             field_cell field (r !! "Order Date") (r' !! name))
          (rows t) (rows t').
Proof.
  intros Hne H. unfold with_field in H.
  apply result_bind_Ok in H as (s & [_ ->]%getitem_Ok & H).
  apply result_bind_Ok in H as (s' & Hs'%dt_Ok & H).
  apply setitem_Ok in H as (_ & -> & ->). split; [done|].
  eapply Forall2_zip_with_rel; [exact Hs'|].
  intros r v Hv. split.
  - intros c Hc. by rewrite lookup_set_cell, decide_False.
  - by rewrite lookup_set_cell, decide_True.
Qed.

Lemma unique_dates_Ok (df u : DataFrame) :
  unique_dates df = Ok u →
  columns u = ["Order Date"] ∧
  NoDup ((λ r : row, r !! "Order Date") <$> rows u) ∧
  (∀ v, v ∈ (λ r : row, r !! "Order Date") <$> rows u ↔
        v ∈ (λ r : row, r !! "Order Date") <$> rows df).
Proof.
  unfold unique_dates. intros H.
  apply result_bind_Ok in H as (d0 & [_ ->]%select_Ok & H).
  apply result_bind_Ok in H as (d1 & [_ ->]%drop_duplicates_Ok & [= <-]).
  unfold reset_index. simpl.
  set (rs := restrict ["Order Date"] <$> rows df).
  assert (∀ r : row, restrict ["Order Date"] r !! "Order Date"
                     = r !! "Order Date") as Hrk.
  { intros r. by rewrite lookup_restrict, decide_True by set_solver. }
  split; [done|]. split; [|intros v; split].
  - pose proof (keep_first_NoDup ["Order Date"] [] rs) as Hnd.
    eapply (NoDup_fmap_1 (λ v : option value, [v])).
    by rewrite <- list_fmap_compose.
  - intros (d & -> & [Hd _]%keep_first_elem)%list_elem_of_fmap.
    apply list_elem_of_fmap in Hd as (r & -> & Hr).
    rewrite Hrk. by apply list_elem_of_fmap_2.
  - intros (r & -> & Hr)%list_elem_of_fmap.
    destruct (keep_first_complete ["Order Date"] [] rs
                (restrict ["Order Date"] r)) as [Hin|Hin].
    { by apply list_elem_of_fmap_2. }
    { by apply elem_of_nil in Hin. }
    apply list_elem_of_fmap in Hin as (d & Hd & Hin).
    injection Hd as Hd. rewrite Hrk in Hd. rewrite Hd.
    by apply list_elem_of_fmap_2.
Qed.

Lemma time_dimension_Ok (df td : DataFrame) :
  time_dimension df = Ok td →
  columns td = ["Date"; "Day"; "Month"; "Quarter"; "Year"] ∧
  NoDup ((λ d : row, d !! "Date") <$> rows td) ∧
  (∀ v, v ∈ (λ d : row, d !! "Date") <$> rows td ↔
        v ∈ (λ r : row, r !! "Order Date") <$> rows df) ∧
  (∀ d, d ∈ rows td → calendar_row d).
Proof.
  unfold time_dimension. intros H.
  apply result_bind_Ok in H as (u & (Hc0 & Hnd & Hiff)%unique_dates_Ok & H).
  apply result_bind_Ok in H as (t1 & [Hc1 H1]%with_field_Ok & H); [|done].
  apply result_bind_Ok in H as (t2 & [Hc2 H2]%with_field_Ok & H); [|done].
  apply result_bind_Ok in H as (t3 & [Hc3 H3]%with_field_Ok & H); [|done].
  apply result_bind_Ok in H as (t4 & [Hc4 H4]%with_field_Ok & [= <-]);
    [|done].
  rewrite Hc0 in Hc1. simpl in Hc1. rewrite Hc1 in Hc2. simpl in Hc2.
  rewrite Hc2 in Hc3. simpl in Hc3. rewrite Hc3 in Hc4. simpl in Hc4.
  unfold rename. rewrite Hc4, decide_True by compute_done. simpl.
  split; [done|].
  assert (Forall2 (λ r d : row,
            d !! "Date" = r !! "Order Date" ∧ calendar_row d)
          (rows u) (rename_row "Order Date" "Date" <$> rows t4)) as Hrel.
  { apply Forall2_fmap_r. apply Forall2_same_length_lookup_2.
    { rewrite (Forall2_length _ _ _ H1), (Forall2_length _ _ _ H2),
        (Forall2_length _ _ _ H3), (Forall2_length _ _ _ H4). done. }
    intros i r x Hr Hx.
    destruct (Forall2_lookup_l _ _ _ _ _ H1 Hr) as (r1 & Hr1 & Ho1 & Hf1).
    destruct (Forall2_lookup_l _ _ _ _ _ H2 Hr1) as (r2 & Hr2 & Ho2 & Hf2).
    destruct (Forall2_lookup_l _ _ _ _ _ H3 Hr2) as (r3 & Hr3 & Ho3 & Hf3).
    destruct (Forall2_lookup_l _ _ _ _ _ H4 Hr3) as (r4 & Hr4 & Ho4 & Hf4).
    assert (r4 = x) as -> by congruence.
    rewrite (Ho3 "Order Date"), (Ho2 "Order Date"), (Ho1 "Order Date")
      in Hf4 by done.
    rewrite (Ho2 "Order Date"), (Ho1 "Order Date") in Hf3 by done.
    rewrite (Ho1 "Order Date") in Hf2 by done.
    rewrite <- (Ho2 "Day"), <- (Ho3 "Day"), <- (Ho4 "Day") in Hf1 by done.
    rewrite <- (Ho3 "Month"), <- (Ho4 "Month") in Hf2 by done.
    rewrite <- (Ho4 "Quarter") in Hf3 by done.
    unfold compose, calendar_row. rewrite !lookup_rename_row by done. simpl.
    rewrite (Ho4 "Order Date"), (Ho3 "Order Date"), (Ho2 "Order Date"),
      (Ho1 "Order Date") by done.
    split; [done|].
    unfold field_cell, dt_quarter in *.
    destruct (r !! "Order Date") as [[?|?|ts]|]; try done. }
  split; [|split].
  - replace ((λ d : row, d !! "Date") <$> (rename_row "Order Date" "Date" <$> rows t4))
      with ((λ r : row, r !! "Order Date") <$> rows u); [done|].
    clear -Hrel. induction Hrel as [|r d rs ds [Hd _] _ IH]; [done|].
    by rewrite !fmap_cons, IH, Hd.
  - intros v. rewrite <- Hiff.
    replace ((λ d : row, d !! "Date") <$> (rename_row "Order Date" "Date" <$> rows t4))
      with ((λ r : row, r !! "Order Date") <$> rows u); [done|].
    clear -Hrel. induction Hrel as [|r d rs ds [Hd _] _ IH]; [done|].
    by rewrite !fmap_cons, IH, Hd.
  - intros d Hd.
    by destruct (Forall2_elem_of_r _ _ _ _ Hrel Hd) as (r & _ & _ & ?).
Qed.

(** ** Computations that leave the stores alone *)

Lemma quiet_print (line : string) : quiet (print line).
Proof. by intros w. Qed.

Lemma quiet_lift {A} (r : result A) : quiet (lift r).
Proof. by intros w. Qed.

Lemma quiet_ret {A} (a : A) : quiet (mret a : M A).
Proof. by intros w. Qed.

Lemma quiet_bind {A B} (m : M A) (f : A → M B) :
  quiet m → (∀ a, quiet (f a)) → quiet (m ≫= f).
Proof.
  intros Hm Hf w. unfold mbind, M_bind.
  specialize (Hm w). destruct (m w) as [w1 [a|e]]; simpl in *; [|done].
  specialize (Hf a w1).
  destruct Hm as (? & ? & ? & ?), Hf as (? & ? & ? & ?).
  repeat split; congruence.
Qed.





Ltac pure_steps bind_lemma print_lemma lift_lemma ret_lemma :=
  repeat (apply bind_lemma;
          [first [apply print_lemma | apply lift_lemma] | intros ?; cbv zeta]);
  apply ret_lemma.

Lemma build_tables_quiet (parse_datetime : value → option Timestamp)
  (df : DataFrame) : quiet (build_tables parse_datetime df).
Proof.
  unfold build_tables.
  pure_steps @quiet_bind quiet_print @quiet_lift @quiet_ret.
Qed.


Lemma dimension_columns (cols : list string) (key : string)
  (df d : DataFrame) :
  dimension cols key df = Ok d → ∀ c, c ∈ cols → c ∈ columns df.
Proof.
  unfold dimension. intros H.
  by apply result_bind_Ok in H as (d0 & [Hall _]%select_Ok & _).
Qed.

Lemma M_bind_Ok_l {A B} (m : M A) (f : A → M B) (w w1 : World) (a : A) :
  m w = (w1, Ok a) → (m ≫= f) w = f a w1.
Proof. intros H. unfold mbind, M_bind. by rewrite H. Qed.

Lemma M_bind_Err {A B} (m : M A) (f : A → M B) (w w1 : World) (e : exn) :
  m w = (w1, Err e) → (m ≫= f) w = (w1, Err e).
Proof. intros H. unfold mbind, M_bind. by rewrite H. Qed.

(** ** The load loop *)

Lemma loaded_append (table_id : string) (data t : DataFrame)
  (old : option DataFrame) :
  loaded (mkLoadJob table_id data WRITE_APPEND) old = Ok t →
  t = appended old data.
Proof.
  unfold loaded, appended. destruct old as [o|]; simpl; [|by intros [= <-]].
  case_decide; [by intros [= <-] | done].
Qed.

Lemma load_one_Ok (item : string * DataFrame) (w w' : World) :
  load_one item w = (w', Ok ()) →
  bq_tables w' = <[table_id_of item.1 :=
                     appended (bq_tables w !! table_id_of item.1) item.2]>
                   (bq_tables w) ∧
  bq_log w' = bq_log w ++ job_events item ∧
  bq_down w' = bq_down w ∧ gcs w' = gcs w.
Proof.
  unfold load_one. intros H.
  apply M_bind_Ok in H as ([] & w1 & (Eg1 & Et1 & Ed1 & El1)%print_Ok & H).
  apply M_bind_Ok in H as (job & w2 & Hjob & H).
  unfold load_table_from_dataframe in Hjob. simpl in Hjob.
  injection Hjob as Hw2 Hj. subst w2 job.
  apply M_bind_Ok in H as ([] & w3 & Hres & (Eg3 & Et3 & Ed3 & El3)%print_Ok).
  unfold job_result in Hres. simpl in Hres.
  case_decide; [done|].
  destruct (loaded _ _) as [t|e] eqn:Hloaded; [|done].
  apply loaded_append in Hloaded as ->.
  injection Hres as <-. simpl in *.
  rewrite Eg3, Et3, Ed3, El3, Eg1, Et1, Ed1, El1.
  by rewrite <- (assoc_L (++)).
Qed.

Lemma for_each_load_Ok (items : list (string * DataFrame)) (w w' : World) :
  NoDup items.*1 →
  for_each items load_one w = (w', Ok ()) →
  bq_log w' = bq_log w ++ (items ≫= job_events) ∧
  (∀ name data, (name, data) ∈ items →
     bq_tables w' !! table_id_of name
       = Some (appended (bq_tables w !! table_id_of name) data)) ∧
  (∀ id, id ∉ table_id_of <$> items.*1 →
     bq_tables w' !! id = bq_tables w !! id).
Proof.
  revert w. induction items as [|[n d] items IH]; intros w Hnd H; simpl in H.
  - injection H as <-. simpl. rewrite (right_id_L [] (++)).
    split; [done|]. split; [|done]. intros ?? Hin. by apply elem_of_nil in Hin.
  - apply M_bind_Ok in H as ([] & w1 & (Et & El & _)%load_one_Ok & H).
    cbn [fst snd] in Et, El. rewrite fmap_cons in Hnd. cbn [fst] in Hnd.
    apply NoDup_cons in Hnd as [Hn Hnd].
    destruct (IH w1 Hnd H) as (IHl & IHt & IHo).
    split; [|split].
    + rewrite IHl, El, bind_cons. by rewrite <- (assoc_L (++)).
    + intros name data [[= -> ->]|Hin]%elem_of_cons.
      * rewrite IHo, Et; [by rewrite lookup_insert_eq|].
        intros (n' & Hn'%(inj table_id_of) & ?)%list_elem_of_fmap.
        by subst.
      * rewrite (IHt _ _ Hin), Et. rewrite lookup_insert_ne; [done|].
        intros Hid%(inj table_id_of). subst. apply Hn.
        by apply (list_elem_of_fmap_2 fst _ (name, data)).
    + intros id Hid. rewrite fmap_cons in Hid.
      apply not_elem_of_cons in Hid as [? ?].
      rewrite IHo, Et by done. by rewrite lookup_insert_ne.
Qed.

(** ** More on the fact table: the cells that pass through *)

Lemma numbered_facts_cells (df f : DataFrame) :
  numbered_facts df = Ok f →
  Forall2 (λ r l : row,
             (∀ c, c ∈ ["Order ID"; "Product ID"; "Customer ID"; "Sales";
                        "Quantity"; "Discount"; "Profit"] →
                   l !! c = r !! c) ∧
             l !! "Date" = r !! "Order Date")
          (rows df) (rows f).
Proof.
  unfold numbered_facts. intros H.
  apply result_bind_Ok in H as (f0 & [_ ->]%select_Ok & H).
  apply result_bind_Ok in H as (f1 & H1 & [= <-]).
  pose proof (setitem_others _ _ _ _ H1) as Hoth.
  apply setitem_Ok in H1 as (_ & Hc & _). simpl in Hc, Hoth.
  unfold rename. rewrite Hc. rewrite decide_True by compute_done. simpl.
  apply Forall2_fmap_r. apply Forall2_fmap_l in Hoth.
  eapply Forall2_impl; [exact Hoth|]. intros r l Hl. simpl in *.
  split.
  - intros c Hc'. rewrite lookup_rename_row by done.
    assert (c ≠ "Date" ∧ c ≠ "Order Date" ∧ c ≠ "Sale ID"
            ∧ c ∈ fact_source_columns) as (? & ? & ? & ?).
    { revert Hc'. rewrite !elem_of_cons, elem_of_nil.
      intros [->|[->|[->|[->|[->|[->|[->|[]]]]]]]]; compute_done. }
    rewrite !decide_False by done. rewrite Hl by done.
    by rewrite lookup_restrict, decide_True.
  - rewrite lookup_rename_row by done. simpl.
    rewrite Hl by done. by rewrite lookup_restrict.
Qed.

Lemma fact_table_restricted (df t1 t2 t3 t4 fact : DataFrame) :
  fact_table df t1 t2 t3 t4 = Ok fact →
  ∀ x c, x ∈ rows fact → c ∉ fact_columns → x !! c = None.
Proof.
  unfold fact_table. intros H.
  apply result_bind_Ok in H as (f0 & _ & H).
  apply result_bind_Ok in H as (m1 & _ & H).
  apply result_bind_Ok in H as (m2 & _ & H).
  apply result_bind_Ok in H as (m3 & _ & H).
  apply result_bind_Ok in H as (m4 & _ & [_ ->]%select_Ok).
  simpl. intros x c (l & -> & _)%list_elem_of_fmap Hc.
  by rewrite lookup_restrict, decide_False.
Qed.

Lemma joined_missing_key key col new agg (df left t : DataFrame) (l : row) :
  aggregate_of key col new agg df t →
  new ∉ columns left → l !! key = None →
  joined key left t l !! new = None.
Proof.
  intros Ht Hnew Hk.
  pose proof (head_matches_aggregate key col new agg df t l Ht) as Hm.
  rewrite Hk in Hm. unfold joined. rewrite Hm. simpl.
  rewrite (right_id_L ∅ (∪)). by rewrite lookup_restrict, decide_False.
Qed.

(** ** From the raw table to the fact table *)

Section Correctness.

Variable parse_datetime : value → option Timestamp.
Variable read_csv : string → result DataFrame.

Lemma with_parsed_dates_Ok (df df' : DataFrame) :
  with_parsed_dates parse_datetime df = Ok df' →
  columns df' = columns df ∧
  Forall2 (λ r r' : row, ∀ c, c ≠ "Order Date" → r' !! c = r !! c)
          (rows df) (rows df') ∧
  to_datetime parse_datetime ((λ r : row, r !! "Order Date") <$> rows df)
    = Ok ((λ r : row, r !! "Order Date") <$> rows df').
Proof.
  unfold with_parsed_dates. intros H.
  apply result_bind_Ok in H as (s & [Hin ->]%getitem_Ok & H).
  apply result_bind_Ok in H as (s' & Hs' & H).
  rewrite (setitem_column _ _ _ _ H).
  split; [|split; [|done]].
  - apply setitem_Ok in H as (_ & -> & _). by rewrite decide_True.
  - by apply setitem_others in H.
Qed.

Lemma fact_table_spec (df : DataFrame) (w w' : World) (t : Tables) :
  build_tables parse_datetime df w = (w', Ok t) →
  columns (sales_fact t) = fact_columns ∧
  (λ x : row, x !! "Sale ID") <$> rows (sales_fact t)
    = range 1 (length (rows df) + 1) ∧
  Forall2 (fact_of df) (rows df) (rows (sales_fact t)).
Proof.
  intros H.
  apply build_tables_Ok in H
    as (g1 & g2 & g3 & g4 & df' & H1 & H2 & H3 & H4 & _ & _ & _ & Hd & _ & Hf).
  apply groupby_agg_rename with (new := "customers.SUM(sales.Sales)") in H1;
    [|done..].
  apply groupby_agg_rename with (new := "customers.MAX(sales.Quantity)") in H2;
    [|done..].
  apply groupby_agg_rename with (new := "products.SUM(sales.Sales)") in H3;
    [|done..].
  apply groupby_agg_rename with (new := "products.MEAN(sales.Sales)") in H4;
    [|done..].
  apply (fact_table_Ok df df' _ _ _ _ _ H1 H2 H3 H4) in Hf
    as (f0 & Hf0 & Hcols & Hrows).
  apply with_parsed_dates_Ok in Hd as (_ & Hd & _).
  apply numbered_facts_Ok in Hf0 as (_ & Hid & Hf0).
  assert (length (rows df') = length (rows df)) as Hlen
    by (symmetry; eapply Forall2_length, Hd).
  split; [done|]. split.
  - rewrite <- Hlen, <- Hid.
    clear -Hrows. induction Hrows as [|l x ls xs [Hk _] _ IH]; [done|].
    rewrite !fmap_cons, IH. f_equal. apply Hk. compute_done.
  - apply Forall2_same_length_lookup_2.
    { rewrite <- (Forall2_length _ _ _ Hrows), <- (Forall2_length _ _ _ Hf0).
      done. }
    intros i r x Hr Hx.
    destruct (Forall2_lookup_l _ _ _ _ _ Hd Hr) as (r' & Hr' & Hrr').
    destruct (Forall2_lookup_l _ _ _ _ _ Hf0 Hr') as (l & Hl & [Hlc Hlp]).
    destruct (Forall2_lookup_l _ _ _ _ _ Hrows Hl)
      as (x' & Hx' & Hk & Hcust & Hprod).
    assert (x' = x) as -> by congruence.
    rewrite (Hrr' "Customer ID") in Hlc by done.
    rewrite (Hrr' "Product ID") in Hlp by done.
    apply list_elem_of_lookup_2 in Hr.
    unfold fact_of.
    rewrite (Hk "Customer ID"), (Hk "Product ID") by compute_done.
    split; [done|]. split; [done|]. split.
    + intros k Hrk.
      destruct (Hcust k) as [Hs Hm].
      { by rewrite Hlc. }
      { apply elem_of_group_keys. eauto. }
      apply agg_sum_Ok in Hs as (qs & Hqs & ->).
      apply agg_max_Ok in Hm as (qm & Hqm & ->).
      pose proof (numeric_group _ _ _ _ _ Hqs) as ->.
      pose proof (numeric_group _ _ _ _ _ Hqm) as ->.
      by repeat split.
    + intros k Hrk.
      destruct (Hprod k) as [Hs Hm].
      { by rewrite Hlp. }
      { apply elem_of_group_keys. eauto. }
      apply agg_sum_Ok in Hs as (qs & Hqs & ->).
      apply agg_mean_Ok in Hm as (qm & Hqm & ->).
      pose proof (numeric_group _ _ _ _ _ Hqs) as ->.
      pose proof (numeric_group _ _ _ _ _ Hqm) as ->.
      by repeat split.
Qed.

(** *** The fact table: row count, surrogate key, aggregates *)

(** C1.  The fact table has exactly as many rows as the raw table.  Each
    left join keeps the row count because a grouped aggregate has one row
    per key: for every aggregate [g] grouped from the raw table and every
    left frame, the keys of [g] are pairwise distinct and the join with
    the renamed [g] returns as many rows as the left frame has. *)
Theorem fact_row_count (df : DataFrame) (w w' : World) (t : Tables) :
  build_tables parse_datetime df w = (w', Ok t) →
  length (rows (sales_fact t)) = length (rows df) ∧
  ∀ key col new agg (g left m : DataFrame),
    key ≠ col → key ≠ new → col ≠ new → new ∉ columns left →
    groupby_agg key col agg df = Ok g →
    merge_left key left (rename col new g) = Ok m →
    NoDup ((λ r : row, r !! key) <$> rows (rename col new g)) ∧
    length (rows m) = length (rows left).
Proof.
  intros H. split.
  - apply fact_table_spec in H as (_ & _ & H).
    symmetry. eapply Forall2_length, H.
  - intros key col new agg g left m Hkc Hkn Hcn Hnew Hg Hm.
    pose proof (groupby_agg_rename _ _ new _ _ _ Hkc Hkn Hcn Hg) as Ht.
    split; [by eapply aggregate_of_NoDup|].
    rewrite (merge_aggregate _ _ _ _ _ _ _ _ Ht Hkn Hnew Hm). simpl.
    by rewrite length_fmap.
Qed.

(** C2.  The [Sale ID] column of the final fact table is 1, 2, ..., N in
    the order of the raw rows, N being the number of raw rows. *)
Theorem sale_id_sequence (df : DataFrame) (w w' : World) (t : Tables) :
  build_tables parse_datetime df w = (w', Ok t) →
  getitem "Sale ID" (sales_fact t)
    = Ok ((λ i, Some (Num (Qc_of_nat i))) <$> seq 1 (length (rows df))).
Proof.
  intros (Hc & Hid & _)%fact_table_spec.
  unfold getitem. rewrite Hc, decide_True by compute_done.
  rewrite Hid. unfold range. do 3 f_equal. lia.
Qed.



(** *** The dimension tables *)

(** C4.  Each of the customer, product and order dimensions has no key
    twice, has every key of the raw table, and keeps for each key the
    first raw row that carries it (projected on the dimension's
    columns). *)
Theorem dimensions_deduplicated (df : DataFrame) (w w' : World) (t : Tables) :
  build_tables parse_datetime df w = (w', Ok t) →
  dimension_of "Customer ID" customer_columns df (customer_dim t) ∧
  dimension_of "Product ID" product_columns df (product_dim t) ∧
  dimension_of "Order ID" order_columns df (order_dim t).
Proof.
  intros H.
  apply build_tables_Ok in H
    as (? & ? & ? & ? & ? & _ & _ & _ & _ & Hc & Hp & Ho & _).
  split; [|split]; by apply dimension_Ok.
Qed.

(** C5.  The time dimension has one row per distinct parsed order date,
    and on every row the day, month, quarter and year are the calendar
    components of the row's own date, with
    quarter = (month - 1) / 3 + 1. *)
Theorem time_dimension_calendar (df : DataFrame) (w w' : World) (t : Tables) :
  build_tables parse_datetime df w = (w', Ok t) →
  ∃ parsed,
    (s ← getitem "Order Date" df; to_datetime parse_datetime s) = Ok parsed ∧
    NoDup ((λ d : row, d !! "Date") <$> rows (time_dim t)) ∧
    (∀ v, v ∈ (λ d : row, d !! "Date") <$> rows (time_dim t) ↔ v ∈ parsed) ∧
    (∀ d, d ∈ rows (time_dim t) → calendar_row d).
Proof.
  intros H.
  apply build_tables_Ok in H
    as (? & ? & ? & ? & df' & _ & _ & _ & _ & _ & _ & _ & Hd & Ht & _).
  apply time_dimension_Ok in Ht as (_ & Hnd & Hiff & Hcal).
  pose proof Hd as (_ & _ & Hparsed)%with_parsed_dates_Ok.
  exists ((λ r : row, r !! "Order Date") <$> rows df').
  split; [|done].
  unfold with_parsed_dates in Hd.
  apply result_bind_Ok in Hd as (s & Hs & _). rewrite Hs. simpl.
  apply getitem_Ok in Hs as [_ ->]. done.
Qed.

(** *** Failures *)

Lemma build_tables_columns (df : DataFrame) (w w' : World) (t : Tables) :
  build_tables parse_datetime df w = (w', Ok t) →
  ∀ c, c ∈ required_columns → c ∈ columns df.
Proof.
  intros H.
  apply build_tables_Ok in H
    as (g1 & g2 & g3 & g4 & df' & H1 & H2 & H3 & _ & Hc & Hp & Ho & Hd & _ & Hf).
  apply groupby_agg_columns in H1 as [? ?].
  apply groupby_agg_columns in H2 as [_ ?].
  apply groupby_agg_columns in H3 as [? _].
  pose proof (dimension_columns _ _ _ _ Hc) as Hcs.
  pose proof (dimension_columns _ _ _ _ Hp) as Hps.
  pose proof (dimension_columns _ _ _ _ Ho) as Hos.
  apply with_parsed_dates_Ok in Hd as (Hcols & _).
  unfold fact_table, numbered_facts in Hf.
  apply result_bind_Ok in Hf as (f0 & Hf & _).
  apply result_bind_Ok in Hf as (f1 & [Hfs _]%select_Ok & _).
  rewrite Hcols in Hfs.
  intros c Hc'. unfold required_columns in Hc'.
  repeat (apply elem_of_cons in Hc' as [->|Hc']); try done;
    first [ apply Hcs; compute_done | apply Hps; compute_done
          | apply Hos; compute_done | apply Hfs; compute_done
          | by apply elem_of_nil in Hc' ].
Qed.

(** C6.  When the raw table lacks a required column, building the tables
    raises: no fact table is produced at all.  The run of the whole
    pipeline on such an input submits no load job and leaves every
    destination table as it was. *)
Theorem missing_column_fails (df : DataFrame) (c : string) :
  c ∈ required_columns → c ∉ columns df →
  (∀ w, ∃ w1 e, build_tables parse_datetime df w = (w1, Err e)) ∧
  (∀ (event : gmap string string) (w : World) (bucket name text : string),
     event !! "bucket" = Some bucket →
     event !! "name" = Some name →
     gcs w !! (bucket, name) = Some text →
     read_csv text = Ok df →
     ∃ w', etl_pipeline parse_datetime read_csv event w = (w', Ok ()) ∧
           bq_log w' = bq_log w ∧ bq_tables w' = bq_tables w).
Proof.
  intros Hc Hn.
  assert (∀ w, ∃ w1 e, build_tables parse_datetime df w = (w1, Err e))
    as Hfail.
  { intros w. destruct (build_tables parse_datetime df w) as [w1 [t|e]] eqn:E;
      [|by eauto].
    destruct Hn. by eapply build_tables_columns. }
  split; [done|].
  intros event w bucket name text Hb Hname Hblob Hcsv.
  destruct (Hfail w) as (w1 & e & Hbuild).
  pose proof (build_tables_quiet parse_datetime df w) as (_ & Ht & _ & Hl).
  rewrite Hbuild in Ht, Hl. simpl in Ht, Hl.
  assert (etl_body parse_datetime read_csv event w = (w1, Err e)) as Hbody.
  { unfold etl_body, event_get. rewrite Hb, Hname.
    rewrite (M_bind_Ok_l _ _ w w bucket) by done.
    rewrite (M_bind_Ok_l _ _ w w name) by done.
    rewrite (M_bind_Ok_l _ _ w w text)
      by (unfold download_as_text; by rewrite Hblob).
    rewrite (M_bind_Ok_l _ _ w w df) by (unfold lift; by rewrite Hcsv).
    by apply M_bind_Err. }
  unfold etl_pipeline, try_except. rewrite Hbody.
  eexists. split; [reflexivity|]. done.
Qed.



(** *** The sink *)

(** C8, as the program has it.  A successful run of the load loop writes
    the five tables [customer_dim], [product_dim], [order_dim],
    [time_dim], [sales_fact], in this order, each to
    [data-mining-assignment-442318.etl_output.<name>], each job completed
    before the next is submitted.  No write disposition is asked for: a
    destination that does not exist is created with the table's data, and
    a destination that exists keeps its rows and gets the new rows after
    them.  No other destination changes. *)
Theorem sink_writer_appends (t : Tables) (w w' : World) :
  load_tables t w = (w', Ok ()) →
  (tables_dict t).*1
    = ["customer_dim"; "product_dim"; "order_dim"; "time_dim"; "sales_fact"] ∧
  bq_log w' = bq_log w ++ (tables_dict t ≫= job_events) ∧
  (∀ name data, (name, data) ∈ tables_dict t →
     table_id_of name
       = "data-mining-assignment-442318.etl_output." +:+ name ∧
     bq_tables w' !! table_id_of name
       = Some (appended (bq_tables w !! table_id_of name) data)) ∧
  (∀ id, id ∉ table_id_of <$> (tables_dict t).*1 →
     bq_tables w' !! id = bq_tables w !! id).
Proof.
  unfold load_tables. intros H.
  apply M_bind_Ok in H as ([] & w1 & (_ & Et1 & _ & El1)%print_Ok & H).
  apply M_bind_Ok in H as ([] & w2 & Hloop & (_ & Et2 & _ & El2)%print_Ok).
  apply for_each_load_Ok in Hloop as (Hl & Ht & Ho); [|compute_done].
  rewrite Et2, El2, Hl, El1. split; [done|]. split; [done|]. split.
  - intros name data Hin. split; [done|].
    rewrite (Ht _ _ Hin). by rewrite Et1.
  - intros id Hid. rewrite (Ho _ Hid). by rewrite Et1.
Qed.

End Correctness.

(** * Further properties of the pipeline *)

Lemma fact_table_null_keys (df df' t1 t2 t3 t4 fact f0 : DataFrame) :
  aggregate_of "Customer ID" "Sales" "customers.SUM(sales.Sales)"
    agg_sum df t1 →
  aggregate_of "Customer ID" "Quantity" "customers.MAX(sales.Quantity)"
    agg_max df t2 →
  aggregate_of "Product ID" "Sales" "products.SUM(sales.Sales)"
    agg_sum df t3 →
  aggregate_of "Product ID" "Sales" "products.MEAN(sales.Sales)"
    agg_mean df t4 →
  numbered_facts df' = Ok f0 →
  fact_table df' t1 t2 t3 t4 = Ok fact →
  Forall2 (λ l x : row,
             (l !! "Customer ID" = None →
              x !! "customers.SUM(sales.Sales)" = None ∧
              x !! "customers.MAX(sales.Quantity)" = None) ∧
             (l !! "Product ID" = None →
              x !! "products.SUM(sales.Sales)" = None ∧
              x !! "products.MEAN(sales.Sales)" = None))
          (rows f0) (rows fact).
Proof.
  intros Ht1 Ht2 Ht3 Ht4 Hf0 H. unfold fact_table in H. rewrite Hf0 in H.
  cbn [mbind result_bind] in H.
  apply numbered_facts_Ok in Hf0 as (Hc0 & _ & _).
  apply result_bind_Ok in H as (m1 & H1 & H).
  apply (merge_aggregate _ _ _ _ _ _ _ _ Ht1) in H1;
    [|done|rewrite Hc0; compute_done].
  apply result_bind_Ok in H as (m2 & H2 & H).
  apply (merge_aggregate _ _ _ _ _ _ _ _ Ht2) in H2;
    [|done|rewrite H1; simpl; rewrite Hc0; compute_done].
  apply result_bind_Ok in H as (m3 & H3 & H).
  apply (merge_aggregate _ _ _ _ _ _ _ _ Ht3) in H3;
    [|done|rewrite H2, H1; simpl; rewrite Hc0; compute_done].
  apply result_bind_Ok in H as (m4 & H4 & H).
  apply (merge_aggregate _ _ _ _ _ _ _ _ Ht4) in H4;
    [|done|rewrite H3, H2, H1; simpl; rewrite Hc0; compute_done].
  apply select_Ok in H as [_ ->]. simpl.
  assert (columns m1 = columns f0 ++ ["customers.SUM(sales.Sales)"]) as Hc1
    by (by rewrite H1).
  assert (columns m2 = columns m1 ++ ["customers.MAX(sales.Quantity)"]) as Hc2
    by (by rewrite H2).
  assert (columns m3 = columns m2 ++ ["products.SUM(sales.Sales)"]) as Hc3
    by (by rewrite H3).
  rewrite Hc0 in Hc1. simpl in Hc1. rewrite Hc1 in Hc2. simpl in Hc2.
  rewrite Hc2 in Hc3. simpl in Hc3.
  assert (rows m1 = joined "Customer ID" f0 t1 <$> rows f0) as Hr1
    by (by rewrite H1).
  assert (rows m2 = joined "Customer ID" m1 t2 <$> rows m1) as Hr2
    by (by rewrite H2).
  assert (rows m3 = joined "Product ID" m2 t3 <$> rows m2) as Hr3
    by (by rewrite H3).
  assert (rows m4 = joined "Product ID" m3 t4 <$> rows m3) as Hr4
    by (by rewrite H4).
  clear H1 H2 H3 H4. rewrite Hr4, Hr3, Hr2, Hr1.
  rewrite <- !list_fmap_compose.
  apply Forall2_fmap_self. intros l. simpl. split.
  - intros Hk. rewrite !lookup_restrict.
    rewrite !decide_True by compute_done. split.
    + keep_cell Ht4. keep_cell Ht3. keep_cell Ht2.
      apply (joined_missing_key _ _ _ _ _ _ _ _ Ht1); [solve_column | exact Hk].
    + keep_cell Ht4. keep_cell Ht3.
      apply (joined_missing_key _ _ _ _ _ _ _ _ Ht2); [solve_column|].
      keep_cell Ht1. exact Hk.
  - intros Hk. rewrite !lookup_restrict.
    rewrite !decide_True by compute_done. split.
    + keep_cell Ht4.
      apply (joined_missing_key _ _ _ _ _ _ _ _ Ht3); [solve_column|].
      keep_cell Ht2. keep_cell Ht1. exact Hk.
    + apply (joined_missing_key _ _ _ _ _ _ _ _ Ht4); [solve_column|].
      keep_cell Ht3. keep_cell Ht2. keep_cell Ht1. exact Hk.
Qed.

Lemma to_datetime_cells (parse_datetime : value → option Timestamp)
  (s s' : list (option value)) :
  to_datetime parse_datetime s = Ok s' →
  Forall2 (λ v v', parseable parse_datetime v ∧
                   v' = parsed_cell parse_datetime v) s s'.
Proof.
  intros H%mapM_result_Ok. eapply Forall2_impl; [exact H|].
  intros v v' Hv. unfold parseable, parsed_cell.
  destruct v as [[x|x|x]|]; simpl in *; simplify_eq; try done;
    destruct (parse_datetime _); by simplify_eq.
Qed.

Section Further.

Variable parse_datetime : value → option Timestamp.
Variable read_csv : string → result DataFrame.

(** Everything the build establishes about the fact table, row by row:
    [r] is the raw row, [x] the fact row at the same position. *)
Lemma fact_cells (df : DataFrame) (w w' : World) (t : Tables) :
  build_tables parse_datetime df w = (w', Ok t) →
  Forall2 (λ r x : row,
             (∀ c, c ∈ carried_columns → x !! c = r !! c) ∧
             parseable parse_datetime (r !! "Order Date") ∧
             x !! "Date" = parsed_cell parse_datetime (r !! "Order Date") ∧
             (r !! "Customer ID" = None →
              x !! "customers.SUM(sales.Sales)" = None ∧
              x !! "customers.MAX(sales.Quantity)" = None) ∧
             (r !! "Product ID" = None →
              x !! "products.SUM(sales.Sales)" = None ∧
              x !! "products.MEAN(sales.Sales)" = None))
          (rows df) (rows (sales_fact t)) ∧
  (∀ x c, x ∈ rows (sales_fact t) → c ∉ fact_columns → x !! c = None).
Proof.
  intros H.
  apply build_tables_Ok in H
    as (g1 & g2 & g3 & g4 & df' & H1 & H2 & H3 & H4 & _ & _ & _ & Hd & _ & Hf).
  apply groupby_agg_rename with (new := "customers.SUM(sales.Sales)") in H1;
    [|done..].
  apply groupby_agg_rename with (new := "customers.MAX(sales.Quantity)") in H2;
    [|done..].
  apply groupby_agg_rename with (new := "products.SUM(sales.Sales)") in H3;
    [|done..].
  apply groupby_agg_rename with (new := "products.MEAN(sales.Sales)") in H4;
    [|done..].
  split; [|by eapply fact_table_restricted].
  destruct (fact_table_Ok df df' _ _ _ _ _ H1 H2 H3 H4 Hf)
    as (f0 & Hf0 & _ & Hrows).
  pose proof (fact_table_null_keys df df' _ _ _ _ _ _ H1 H2 H3 H4 Hf0 Hf)
    as Hnull.
  pose proof (numbered_facts_cells _ _ Hf0) as Hcells.
  apply with_parsed_dates_Ok in Hd as (_ & Hd & Hparsed).
  apply to_datetime_cells in Hparsed.
  apply Forall2_fmap in Hparsed.
  apply Forall2_same_length_lookup_2.
  { rewrite <- (Forall2_length _ _ _ Hrows), <- (Forall2_length _ _ _ Hcells).
    eapply Forall2_length, Hd. }
  intros i r x Hr Hx.
  destruct (Forall2_lookup_l _ _ _ _ _ Hd Hr) as (r' & Hr' & Hrr').
  destruct (Forall2_lookup_l _ _ _ _ _ Hcells Hr') as (l & Hl & Hlc & Hld).
  destruct (Forall2_lookup_l _ _ _ _ _ Hrows Hl) as (x' & Hx' & Hk & _).
  assert (x' = x) as -> by congruence.
  destruct (Forall2_lookup_lr _ _ _ _ _ _ Hnull Hl Hx) as [Hnc Hnp].
  destruct (Forall2_lookup_lr _ _ _ _ _ _ Hparsed Hr Hr') as [Hp Hpc].
  split; [|split; [done|split; [|split]]].
  - intros c Hc.
    assert (c ∈ kept_columns ∧ c ≠ "Order Date") as [? ?].
    { revert Hc. unfold carried_columns.
      rewrite !elem_of_cons, elem_of_nil.
      intros [->|[->|[->|[->|[->|[->|[->|[]]]]]]]]; compute_done. }
    rewrite Hk, Hlc, Hrr' by done. done.
  - rewrite (Hk "Date"), Hld, Hpc by compute_done. done.
  - intros Hn. apply Hnc. rewrite (Hlc "Customer ID") by compute_done.
    by rewrite Hrr'.
  - intros Hn. apply Hnp. rewrite (Hlc "Product ID") by compute_done.
    by rewrite Hrr'.
Qed.

(** *** The shape of the five tables *)

(** X1.  A successful build gives the five tables their fixed columns, in
    the order the program lists them: in particular the fact table has
    the thirteen columns of the final projection, without [Region]. *)
Theorem output_schemas (df : DataFrame) (w w' : World) (t : Tables) :
  build_tables parse_datetime df w = (w', Ok t) →
  columns (customer_dim t)
    = ["Customer ID"; "Customer Name"; "Segment"; "Country"; "City";
       "State"; "Postal Code"] ∧
  columns (product_dim t)
    = ["Product ID"; "Product Name"; "Category"; "Sub-Category"] ∧
  columns (order_dim t) = ["Order ID"; "Order Date"; "Ship Mode"] ∧
  columns (time_dim t) = ["Date"; "Day"; "Month"; "Quarter"; "Year"] ∧
  columns (sales_fact t)
    = ["Sale ID"; "Order ID"; "Product ID"; "Customer ID"; "Date";
       "Sales"; "Quantity"; "Discount"; "Profit";
       "customers.SUM(sales.Sales)"; "customers.MAX(sales.Quantity)";
       "products.SUM(sales.Sales)"; "products.MEAN(sales.Sales)"].
Proof.
  intros H. pose proof (fact_table_spec _ _ _ _ _ H) as (Hf & _).
  apply build_tables_Ok in H
    as (? & ? & ? & ? & df' & _ & _ & _ & _ & Hc & Hp & Ho & _ & Ht & _).
  apply dimension_Ok in Hc as [Hc _], Hp as [Hp _], Ho as [Ho _].
  apply time_dimension_Ok in Ht as [Ht _].
  by rewrite Hc, Hp, Ho, Ht, Hf.
Qed.

(** X2.  The fact row at position [i] carries the raw row at position
    [i]: its order, product and customer identifiers and its four
    measures are the raw cells, its [Date] is the parsed [Order Date], and
    it has no cell outside the thirteen fact columns (so no [Region]). *)
Theorem fact_row_carries_raw_row (df : DataFrame) (w w' : World)
  (t : Tables) (i : nat) (r x : row) :
  build_tables parse_datetime df w = (w', Ok t) →
  rows df !! i = Some r →
  rows (sales_fact t) !! i = Some x →
  (∀ c, c ∈ carried_columns → x !! c = r !! c) ∧
  x !! "Date" = parsed_cell parse_datetime (r !! "Order Date") ∧
  (∀ c, c ∉ fact_columns → x !! c = None).
Proof.
  intros [Hcells Hdom]%fact_cells Hr Hx.
  destruct (Forall2_lookup_lr _ _ _ _ _ _ Hcells Hr Hx) as (Hc & _ & Hd & _).
  split; [done|]. split; [done|].
  intros c Hc'. eapply Hdom; [|done]. by eapply list_elem_of_lookup_2.
Qed.

(** X3.  Referential integrity of the star schema: the customer, product
    and order identifiers of every fact row occur as keys of the
    corresponding dimension, and its date occurs in the time dimension. *)
Theorem fact_keys_in_dimensions (df : DataFrame) (w w' : World)
  (t : Tables) (x : row) :
  build_tables parse_datetime df w = (w', Ok t) →
  x ∈ rows (sales_fact t) →
  x !! "Customer ID"
    ∈ (λ d : row, d !! "Customer ID") <$> rows (customer_dim t) ∧
  x !! "Product ID"
    ∈ (λ d : row, d !! "Product ID") <$> rows (product_dim t) ∧
  x !! "Order ID" ∈ (λ d : row, d !! "Order ID") <$> rows (order_dim t) ∧
  x !! "Date" ∈ (λ d : row, d !! "Date") <$> rows (time_dim t).
Proof.
  intros H Hx. pose proof (fact_cells _ _ _ _ H) as [Hcells _].
  destruct (Forall2_elem_of_r _ _ _ _ Hcells Hx)
    as (r & Hr & Hc & _ & Hd & _).
  apply build_tables_Ok in H
    as (? & ? & ? & ? & df' & _ & _ & _ & _ & Hcd & Hpd & Hod & Hp & Ht & _).
  apply dimension_Ok in Hcd as (_ & _ & Hcd & _), Hpd as (_ & _ & Hpd & _),
    Hod as (_ & _ & Hod & _).
  rewrite !Hc by compute_done.
  split; [by apply Hcd|]. split; [by apply Hpd|]. split; [by apply Hod|].
  apply time_dimension_Ok in Ht as (_ & _ & Hiff & _).
  apply Hiff.
  apply with_parsed_dates_Ok in Hp as (_ & _ & Hparsed).
  apply to_datetime_cells in Hparsed.
  apply list_elem_of_lookup_1 in Hr as [i Hi].
  assert (((λ r : row, r !! "Order Date") <$> rows df) !! i
          = Some (r !! "Order Date")) as Hi'
    by (by rewrite list_lookup_fmap, Hi).
  destruct (Forall2_lookup_l _ _ _ _ _ Hparsed Hi') as (v' & Hv' & _ & ->).
  rewrite Hd. by eapply list_elem_of_lookup_2.
Qed.

(** *** The other aggregates *)







(** *** When the build goes through *)

Lemma bind_print_ex {B} (line : string) (f : () → M B) (b : B) (w : World) :
  (∀ w1, ∃ w', f () w1 = (w', Ok b)) →
  ∃ w', (print line ≫= f) w = (w', Ok b).
Proof.
  intros Hf. unfold mbind, M_bind, print. apply Hf.
Qed.

Lemma bind_lift_ex {A B} (r : result A) (a : A) (f : A → M B) (b : B)
  (w : World) :
  r = Ok a → (∃ w', f a w = (w', Ok b)) →
  ∃ w', (lift r ≫= f) w = (w', Ok b).
Proof. intros -> Hf. unfold mbind, M_bind, lift. apply Hf. Qed.

(** The converse of [build_tables_Ok]: when every stage succeeds, so does
    the build, with the tables of the stages. *)
Lemma build_tables_complete (df g1 g2 g3 g4 df' cd pd od td f : DataFrame)
  (w : World) :
  groupby_agg "Customer ID" "Sales" agg_sum df = Ok g1 →
  groupby_agg "Customer ID" "Quantity" agg_max df = Ok g2 →
  groupby_agg "Product ID" "Sales" agg_sum df = Ok g3 →
  groupby_agg "Product ID" "Sales" agg_mean df = Ok g4 →
  dimension customer_columns "Customer ID" df = Ok cd →
  dimension product_columns "Product ID" df = Ok pd →
  dimension order_columns "Order ID" df = Ok od →
  with_parsed_dates parse_datetime df = Ok df' →
  time_dimension df' = Ok td →
  fact_table df'
    (rename "Sales" "customers.SUM(sales.Sales)" g1)
    (rename "Quantity" "customers.MAX(sales.Quantity)" g2)
    (rename "Sales" "products.SUM(sales.Sales)" g3)
    (rename "Sales" "products.MEAN(sales.Sales)" g4) = Ok f →
  ∃ w', build_tables parse_datetime df w = (w', Ok (mkTables cd pd od td f)).
Proof.
  intros H1 H2 H3 H4 Hcd Hpd Hod Hdf Htd Hf.
  unfold time_dimension in Htd.
  apply result_bind_Ok in Htd as (u0 & Hu0 & Htd).
  apply result_bind_Ok in Htd as (u1 & Hu1 & Htd).
  apply result_bind_Ok in Htd as (u2 & Hu2 & Htd).
  apply result_bind_Ok in Htd as (u3 & Hu3 & Htd).
  apply result_bind_Ok in Htd as (u4 & Hu4 & [= <-]).
  unfold fact_table in Hf.
  apply result_bind_Ok in Hf as (f0 & Hf0 & Hf).
  unfold numbered_facts in Hf0.
  apply result_bind_Ok in Hf0 as (s0 & Hs0 & Hf0).
  apply result_bind_Ok in Hf0 as (s1 & Hs1 & [= <-]).
  apply result_bind_Ok in Hf as (m1 & Hm1 & Hf).
  apply result_bind_Ok in Hf as (m2 & Hm2 & Hf).
  apply result_bind_Ok in Hf as (m3 & Hm3 & Hf).
  apply result_bind_Ok in Hf as (m4 & Hm4 & Hf).
  unfold build_tables.
  repeat first
    [ apply bind_print_ex; intros ?
    | eapply bind_lift_ex; [eassumption|]; cbv zeta ].
  eexists. reflexivity.
Qed.

Lemma mapM_result_total {A B} (f : A → result B) (l : list A) :
  (∀ x, x ∈ l → ∃ y, f x = Ok y) → ∃ l', mapM f l = Ok l'.
Proof.
  induction l as [|x l IH]; intros Hf; simpl; [by eexists|].
  destruct (Hf x) as [y Hy]; [left|].
  destruct IH as [l' Hl']; [intros z Hz; apply Hf; by right|].
  rewrite Hy. cbn [mbind result_bind]. rewrite Hl'. by eexists.
Qed.

Lemma numeric_total (vs : list (option value)) :
  Forall numeric_cell vs → ∃ qs, numeric vs = Ok qs.
Proof.
  induction 1 as [|v vs Hv _ [qs IH]]; simpl; [by eexists|].
  destruct v as [[?|q|?]|]; try done; rewrite IH; by eexists.
Qed.

Lemma agg_sum_total (vs : list (option value)) :
  Forall numeric_cell vs → ∃ v, agg_sum vs = Ok v.
Proof.
  intros [qs Hqs]%numeric_total. unfold agg_sum. rewrite Hqs. by eexists.
Qed.

Lemma agg_max_total (vs : list (option value)) :
  Forall numeric_cell vs → ∃ v, agg_max vs = Ok v.
Proof.
  intros [qs Hqs]%numeric_total. unfold agg_max. rewrite Hqs. by eexists.
Qed.

Lemma agg_mean_total (vs : list (option value)) :
  Forall numeric_cell vs → ∃ v, agg_mean vs = Ok v.
Proof.
  intros [qs Hqs]%numeric_total. unfold agg_mean. rewrite Hqs. by eexists.
Qed.

Lemma groupby_agg_total (key col : string)
  (agg : list (option value) → result (option value)) (df : DataFrame) :
  key ∈ columns df → col ∈ columns df →
  (∀ vs, Forall numeric_cell vs → ∃ v, agg vs = Ok v) →
  (∀ r : row, r ∈ rows df → is_Some (r !! key) → numeric_cell (r !! col)) →
  ∃ g, groupby_agg key col agg df = Ok g.
Proof.
  intros Hk Hc Hagg Hnum. unfold groupby_agg.
  rewrite !decide_True by done.
  destruct (mapM_result_total
              (λ k, v ← agg (group_cells key col k df);
                    Ok (<[key := k]> (set_cell col v ∅)))
              (group_keys key df)) as [rs Hrs].
  - intros k _. destruct (Hagg (group_cells key col k df)) as [v Hv].
    + unfold group_cells, group_rows. apply Forall_fmap, Forall_forall.
      intros r [Hr Hin]%list_elem_of_filter. simpl.
      apply Hnum; [done | by rewrite Hr].
    + rewrite Hv. by eexists.
  - rewrite Hrs. by eexists.
Qed.

Lemma select_total (cs : list string) (df : DataFrame) :
  (∀ c, c ∈ cs → c ∈ columns df) →
  select cs df = Ok (mkDF cs (restrict cs <$> rows df)).
Proof.
  intros Hcs. unfold select, missing.
  rewrite filter_none; [done|]. intros c Hc Hn. by apply Hn, Hcs.
Qed.

Lemma drop_duplicates_total (subset : option (list string))
  (df : DataFrame) :
  (∀ c, c ∈ default (columns df) subset → c ∈ columns df) →
  drop_duplicates subset df
  = Ok (mkDF (columns df)
             (keep_first (default (columns df) subset) [] (rows df))).
Proof.
  intros Hcs. unfold drop_duplicates, missing.
  rewrite filter_none; [done|]. intros c Hc Hn. by apply Hn, Hcs.
Qed.

Lemma dimension_total (cols : list string) (key : string) (df : DataFrame) :
  (∀ c, c ∈ cols → c ∈ columns df) → key ∈ cols →
  ∃ d, dimension cols key df = Ok d.
Proof.
  intros Hcs Hk. unfold dimension. rewrite (select_total _ _ Hcs).
  cbn [mbind result_bind]. rewrite drop_duplicates_total.
  - by eexists.
  - simpl. by intros c ->%list_elem_of_singleton.
Qed.

Lemma to_datetime_total (s : list (option value)) :
  Forall (parseable parse_datetime) s →
  ∃ s', to_datetime parse_datetime s = Ok s'.
Proof.
  intros Hs. apply mapM_result_total. intros v Hv.
  rewrite Forall_forall in Hs. specialize (Hs v Hv).
  destruct v as [[x|x|x]|]; simpl in *; try by eexists.
  - destruct Hs as [t ->]. by eexists.
  - destruct Hs as [t ->]. by eexists.
Qed.

Lemma with_parsed_dates_total (df : DataFrame) :
  "Order Date" ∈ columns df →
  (∀ r : row, r ∈ rows df → parseable parse_datetime (r !! "Order Date")) →
  ∃ df', with_parsed_dates parse_datetime df = Ok df' ∧
         columns df' = columns df ∧
         ∀ r' : row, r' ∈ rows df' → date_cell (r' !! "Order Date").
Proof.
  intros Hc Hp. unfold with_parsed_dates, getitem.
  rewrite decide_True by done. cbn [mbind result_bind].
  destruct (to_datetime_total ((λ r : row, r !! "Order Date") <$> rows df))
    as [s' Hs'].
  { apply Forall_fmap, Forall_forall. intros r Hr. by apply Hp. }
  rewrite Hs'. cbn [mbind result_bind].
  pose proof (mapM_result_length _ _ _ Hs') as Hlen.
  rewrite length_fmap in Hlen.
  unfold setitem. rewrite !decide_True by done.
  eexists. split; [done|]. split; [done|]. simpl.
  apply to_datetime_cells in Hs'.
  intros r' Hr'. apply list_elem_of_lookup_1 in Hr' as [i Hi].
  apply lookup_zip_with_Some in Hi as (r & v' & -> & Hr & Hv').
  rewrite lookup_set_cell, decide_True by done.
  assert (((λ r : row, r !! "Order Date") <$> rows df) !! i
          = Some (r !! "Order Date")) as Hri
    by (by rewrite list_lookup_fmap, Hr).
  destruct (Forall2_lookup_lr _ _ _ _ _ _ Hs' Hri Hv') as [Hpv ->].
  unfold parseable, parsed_cell, date_cell in *.
  destruct (r !! "Order Date") as [[x|x|x]|]; try done;
    by destruct Hpv as [? ->].
Qed.

Lemma dt_total (field : Timestamp → Z) (s : list (option value)) :
  Forall date_cell s → ∃ s', dt field s = Ok s'.
Proof.
  intros Hs. apply mapM_result_total. intros v Hv.
  rewrite Forall_forall in Hs. specialize (Hs v Hv).
  destruct v as [[x|x|x]|]; simpl in *; try done; by eexists.
Qed.

Lemma with_field_total (name : string) (field : Timestamp → Z)
  (t : DataFrame) :
  name ≠ "Order Date" →
  "Order Date" ∈ columns t →
  (∀ r : row, r ∈ rows t → date_cell (r !! "Order Date")) →
  ∃ t', with_field name field t = Ok t' ∧
        "Order Date" ∈ columns t' ∧
        ∀ r : row, r ∈ rows t' → date_cell (r !! "Order Date").
Proof.
  intros Hne Hc Hd.
  assert (∃ t', with_field name field t = Ok t') as [t' Ht'].
  { unfold with_field, getitem. rewrite decide_True by done.
    cbn [mbind result_bind].
    destruct (dt_total field ((λ r : row, r !! "Order Date") <$> rows t))
      as [s' Hs'].
    { apply Forall_fmap, Forall_forall. intros r Hr. by apply Hd. }
    rewrite Hs'. cbn [mbind result_bind].
    pose proof (mapM_result_length _ _ _ Hs') as Hlen.
    rewrite length_fmap in Hlen.
    unfold setitem. rewrite decide_True by done. by eexists. }
  exists t'. split; [done|].
  destruct (with_field_Ok _ _ _ _ Hne Ht') as [Hcols Hrows]. split.
  - rewrite Hcols. case_decide; [done|]. apply elem_of_app. by left.
  - intros r' Hr'.
    destruct (Forall2_elem_of_r _ _ _ _ Hrows Hr') as (r & Hr & Hoth & _).
    rewrite Hoth by done. by apply Hd.
Qed.

Lemma time_dimension_total (df : DataFrame) :
  "Order Date" ∈ columns df →
  (∀ r : row, r ∈ rows df → date_cell (r !! "Order Date")) →
  ∃ td, time_dimension df = Ok td.
Proof.
  intros Hc Hd. unfold time_dimension.
  assert (∃ u, unique_dates df = Ok u ∧ "Order Date" ∈ columns u ∧
               ∀ r : row, r ∈ rows u → date_cell (r !! "Order Date"))
    as (u & -> & Hcu & Hdu).
  { unfold unique_dates. rewrite select_total.
    2: { by intros c ->%list_elem_of_singleton. }
    cbn [mbind result_bind]. rewrite drop_duplicates_total by done.
    eexists. split; [done|]. unfold reset_index. simpl.
    split; [left|].
    intros r [Hr _]%keep_first_elem.
    apply list_elem_of_fmap in Hr as (r0 & -> & Hr0).
    rewrite lookup_restrict, decide_True by (left). by apply Hd. }
  cbn [mbind result_bind].
  destruct (with_field_total "Day" ts_day u) as (t1 & -> & Hc1 & Hd1);
    [done..|]. cbn [mbind result_bind].
  destruct (with_field_total "Month" ts_month t1) as (t2 & -> & Hc2 & Hd2);
    [done..|]. cbn [mbind result_bind].
  destruct (with_field_total "Quarter" dt_quarter t2)
    as (t3 & -> & Hc3 & Hd3); [done..|]. cbn [mbind result_bind].
  destruct (with_field_total "Year" ts_year t3) as (t4 & -> & Hc4 & Hd4);
    [done..|]. cbn [mbind result_bind].
  by eexists.
Qed.

Lemma merge_left_total (key : string) (left right : DataFrame) :
  key ∈ columns left → key ∈ columns right →
  ∃ m, merge_left key left right = Ok m.
Proof.
  intros Hl Hr. unfold merge_left. rewrite !decide_True by done.
  by eexists.
Qed.

Lemma fact_table_total (df df' t1 t2 t3 t4 : DataFrame) :
  aggregate_of "Customer ID" "Sales" "customers.SUM(sales.Sales)"
    agg_sum df t1 →
  aggregate_of "Customer ID" "Quantity" "customers.MAX(sales.Quantity)"
    agg_max df t2 →
  aggregate_of "Product ID" "Sales" "products.SUM(sales.Sales)"
    agg_sum df t3 →
  aggregate_of "Product ID" "Sales" "products.MEAN(sales.Sales)"
    agg_mean df t4 →
  (∀ c, c ∈ fact_source_columns → c ∈ columns df') →
  ∃ f, fact_table df' t1 t2 t3 t4 = Ok f.
Proof.
  intros Ht1 Ht2 Ht3 Ht4 Hcs. unfold fact_table.
  assert (∃ f0, numbered_facts df' = Ok f0) as [f0 Hf0].
  { unfold numbered_facts. rewrite (select_total _ _ Hcs).
    cbn [mbind result_bind]. unfold setitem. simpl.
    rewrite decide_True; [by eexists|].
    unfold range. rewrite length_fmap, length_seq. lia. }
  rewrite Hf0. cbn [mbind result_bind].
  apply numbered_facts_Ok in Hf0 as (Hc0 & _ & _).
  destruct (merge_left_total "Customer ID" f0 t1) as [m1 H1].
  { rewrite Hc0. compute_done. }
  { rewrite (proj1 Ht1). left. }
  rewrite H1. cbn [mbind result_bind].
  apply (merge_aggregate _ _ _ _ _ _ _ _ Ht1) in H1;
    [|done|rewrite Hc0; compute_done].
  assert (columns m1 = columns f0 ++ ["customers.SUM(sales.Sales)"]) as Hc1
    by (by rewrite H1).
  rewrite Hc0 in Hc1. simpl in Hc1. clear H1.
  destruct (merge_left_total "Customer ID" m1 t2) as [m2 H2].
  { rewrite Hc1. compute_done. }
  { rewrite (proj1 Ht2). left. }
  rewrite H2. cbn [mbind result_bind].
  apply (merge_aggregate _ _ _ _ _ _ _ _ Ht2) in H2;
    [|done|rewrite Hc1; compute_done].
  assert (columns m2 = columns m1 ++ ["customers.MAX(sales.Quantity)"])
    as Hc2 by (by rewrite H2).
  rewrite Hc1 in Hc2. simpl in Hc2. clear H2.
  destruct (merge_left_total "Product ID" m2 t3) as [m3 H3].
  { rewrite Hc2. compute_done. }
  { rewrite (proj1 Ht3). left. }
  rewrite H3. cbn [mbind result_bind].
  apply (merge_aggregate _ _ _ _ _ _ _ _ Ht3) in H3;
    [|done|rewrite Hc2; compute_done].
  assert (columns m3 = columns m2 ++ ["products.SUM(sales.Sales)"])
    as Hc3 by (by rewrite H3).
  rewrite Hc2 in Hc3. simpl in Hc3. clear H3.
  destruct (merge_left_total "Product ID" m3 t4) as [m4 H4].
  { rewrite Hc3. compute_done. }
  { rewrite (proj1 Ht4). left. }
  rewrite H4. cbn [mbind result_bind].
  apply (merge_aggregate _ _ _ _ _ _ _ _ Ht4) in H4;
    [|done|rewrite Hc3; compute_done].
  assert (columns m4 = columns m3 ++ ["products.MEAN(sales.Sales)"])
    as Hc4 by (by rewrite H4).
  rewrite Hc3 in Hc4. simpl in Hc4. clear H4.
  rewrite select_total; [by eexists|].
  rewrite Hc4. intros c Hc. revert c Hc. apply Forall_forall.
  unfold fact_columns. repeat constructor; compute_done.
Qed.

(** On a well-formed raw table every stage succeeds. *)
Lemma stages_total (df : DataFrame) :
  well_formed parse_datetime df →
  ∃ g1 g2 g3 g4 df' cd pd od td f,
    groupby_agg "Customer ID" "Sales" agg_sum df = Ok g1 ∧
    groupby_agg "Customer ID" "Quantity" agg_max df = Ok g2 ∧
    groupby_agg "Product ID" "Sales" agg_sum df = Ok g3 ∧
    groupby_agg "Product ID" "Sales" agg_mean df = Ok g4 ∧
    dimension customer_columns "Customer ID" df = Ok cd ∧
    dimension product_columns "Product ID" df = Ok pd ∧
    dimension order_columns "Order ID" df = Ok od ∧
    with_parsed_dates parse_datetime df = Ok df' ∧
    time_dimension df' = Ok td ∧
    fact_table df'
      (rename "Sales" "customers.SUM(sales.Sales)" g1)
      (rename "Quantity" "customers.MAX(sales.Quantity)" g2)
      (rename "Sales" "products.SUM(sales.Sales)" g3)
      (rename "Sales" "products.MEAN(sales.Sales)" g4) = Ok f.
Proof.
  intros [Hcols Hrows].
  assert (∀ c, c ∈ required_columns → c ∈ columns df) as Hreq by done.
  destruct (groupby_agg_total "Customer ID" "Sales" agg_sum df)
    as [g1 H1]; [apply Hreq; compute_done.. | apply agg_sum_total | |].
  { intros r Hr Hk. destruct (Hrows r Hr) as (Hcu & _). by destruct (Hcu Hk). }
  destruct (groupby_agg_total "Customer ID" "Quantity" agg_max df)
    as [g2 H2]; [apply Hreq; compute_done.. | apply agg_max_total | |].
  { intros r Hr Hk. destruct (Hrows r Hr) as (Hcu & _). by destruct (Hcu Hk). }
  destruct (groupby_agg_total "Product ID" "Sales" agg_sum df)
    as [g3 H3]; [apply Hreq; compute_done.. | apply agg_sum_total | |].
  { intros r Hr Hk. destruct (Hrows r Hr) as (_ & Hpr & _). by apply Hpr. }
  destruct (groupby_agg_total "Product ID" "Sales" agg_mean df)
    as [g4 H4]; [apply Hreq; compute_done.. | apply agg_mean_total | |].
  { intros r Hr Hk. destruct (Hrows r Hr) as (_ & Hpr & _). by apply Hpr. }
  destruct (dimension_total customer_columns "Customer ID" df) as [cd Hcd].
  { intros c Hc. apply Hreq. revert c Hc. apply Forall_forall.
    unfold customer_columns. repeat constructor; compute_done. }
  { compute_done. }
  destruct (dimension_total product_columns "Product ID" df) as [pd Hpd].
  { intros c Hc. apply Hreq. revert c Hc. apply Forall_forall.
    unfold product_columns. repeat constructor; compute_done. }
  { compute_done. }
  destruct (dimension_total order_columns "Order ID" df) as [od Hod].
  { intros c Hc. apply Hreq. revert c Hc. apply Forall_forall.
    unfold order_columns. repeat constructor; compute_done. }
  { compute_done. }
  destruct (with_parsed_dates_total df) as (df' & Hdf' & Hc' & Hd').
  { apply Hreq. compute_done. }
  { intros r Hr. by destruct (Hrows r Hr) as (_ & _ & ?). }
  destruct (time_dimension_total df') as [td Htd].
  { rewrite Hc'. apply Hreq. compute_done. }
  { done. }
  destruct (fact_table_total df df'
              (rename "Sales" "customers.SUM(sales.Sales)" g1)
              (rename "Quantity" "customers.MAX(sales.Quantity)" g2)
              (rename "Sales" "products.SUM(sales.Sales)" g3)
              (rename "Sales" "products.MEAN(sales.Sales)" g4))
    as [f Hf]; [by apply groupby_agg_rename.. | |].
  { rewrite Hc'. intros c Hc. apply Hreq. revert c Hc. apply Forall_forall.
    unfold fact_source_columns. repeat constructor; compute_done. }
  by exists g1, g2, g3, g4, df', cd, pd, od, td, f.
Qed.


(** X8.  A raw table with the required columns and no row at all (a file
    with its header only) is built, and gives five tables without rows. *)
Theorem empty_table_gives_empty_tables (df : DataFrame) (w : World) :
  (∀ c, c ∈ required_columns → c ∈ columns df) →
  rows df = [] →
  ∃ w' t, build_tables parse_datetime df w = (w', Ok t) ∧
          rows (customer_dim t) = [] ∧ rows (product_dim t) = [] ∧
          rows (order_dim t) = [] ∧ rows (time_dim t) = [] ∧
          rows (sales_fact t) = [].
Proof.
  intros Hcols Hrows.
  assert (well_formed parse_datetime df) as Hwf.
  { split; [done|]. intros r. rewrite Hrows. by intros ?%elem_of_nil. }
  apply stages_total in Hwf
    as (g1 & g2 & g3 & g4 & df' & cd & pd & od & td & f & H).
  destruct H as (H1 & H2 & H3 & H4 & Hcd & Hpd & Hod & Hdf' & Htd & Hf).
  destruct (build_tables_complete df g1 g2 g3 g4 df' cd pd od td f w)
    as [w' Hw']; try done.
  exists w', (mkTables cd pd od td f). split; [done|]. simpl.
  assert (∀ key cols d, dimension_of key cols df d → rows d = []) as Hdim.
  { intros key cols d (_ & _ & _ & Hfirst).
    destruct (rows d) as [|x xs] eqn:E; [done|].
    destruct (Hfirst x) as (r & Hr & _); [try rewrite E; left|].
    rewrite Hrows in Hr. done. }
  split; [by eapply Hdim, dimension_Ok|].
  split; [by eapply Hdim, dimension_Ok|].
  split; [by eapply Hdim, dimension_Ok|]. split.
  - apply time_dimension_Ok in Htd as (_ & _ & Hiff & _).
    apply with_parsed_dates_Ok in Hdf' as (_ & Hd & _).
    rewrite Hrows in Hd. apply Forall2_nil_inv_l in Hd.
    destruct (rows td) as [|x xs]; [done|].
    assert (x !! "Date" ∈ (λ r : row, r !! "Order Date") <$> rows df')
      as Hin by (apply Hiff; rewrite fmap_cons; left).
    rewrite Hd in Hin. by apply elem_of_nil in Hin.
  - apply fact_table_spec in Hw' as (_ & _ & Hfact). simpl in Hfact.
    rewrite Hrows in Hfact. by apply Forall2_nil_inv_l in Hfact.
Qed.


(** *** Before the load: reading the event, the object and the text *)



(** *** Cloud Storage is only read *)

Lemma storage_bind {A B} (m : M A) (f : A → M B) :
  storage_preserving m → (∀ a, storage_preserving (f a)) →
  storage_preserving (m ≫= f).
Proof.
  intros Hm Hf w. unfold mbind, M_bind.
  specialize (Hm w). destruct (m w) as [w1 [a|e]]; simpl in *; [|done].
  by rewrite (Hf a w1).
Qed.

Lemma storage_quiet {A} (m : M A) : quiet m → storage_preserving m.
Proof. intros H w. apply H. Qed.

Lemma storage_load_one (item : string * DataFrame) :
  storage_preserving (load_one item).
Proof.
  unfold load_one.
  apply storage_bind; [by intros w|]. intros _.
  apply storage_bind; [by intros w|]. intros job.
  apply storage_bind; [|by intros _ w].
  intros w. unfold job_result. case_decide; [done|].
  by destruct (loaded _ _).
Qed.

Lemma storage_for_each (items : list (string * DataFrame)) :
  storage_preserving (for_each items load_one).
Proof.
  induction items as [|item items IH]; [by intros w|].
  simpl. apply storage_bind; [apply storage_load_one | by intros _].
Qed.

(** X11.  No run writes to Cloud Storage: whatever the event and whatever
    happens, the objects are after the run what they were before. *)
Theorem storage_is_only_read (event : gmap string string) (w : World) :
  gcs (etl_pipeline parse_datetime read_csv event w).1 = gcs w.
Proof.
  assert (storage_preserving (etl_body parse_datetime read_csv event))
    as Hbody.
  { unfold etl_body, event_get.
    apply storage_bind; [by intros ?|]. intros bucket.
    apply storage_bind; [by intros ?|]. intros name.
    apply storage_bind.
    { intros w0. unfold download_as_text. by destruct (gcs w0 !! _). }
    intros text. apply storage_bind; [by intros ?|]. intros df.
    apply storage_bind.
    { apply storage_quiet, build_tables_quiet. }
    intros t. unfold load_tables.
    apply storage_bind; [by intros ?|]. intros _.
    apply storage_bind; [apply storage_for_each|]. by intros _ ?. }
  unfold etl_pipeline, try_except. specialize (Hbody w).
  by destruct (etl_body parse_datetime read_csv event w) as [w1 [[]|e]].
Qed.

(** *** A load that fails *)

Lemma for_each_app_fails (pre post : list (string * DataFrame))
  (item : string * DataFrame) (w w1 w2 : World) (e : exn) :
  for_each pre load_one w = (w1, Ok ()) →
  load_one item w1 = (w2, Err e) →
  for_each (pre ++ item :: post) load_one w = (w2, Err e).
Proof.
  revert w. induction pre as [|p pre IH]; intros w Hpre Hitem; simpl in *.
  - injection Hpre as <-. by apply M_bind_Err.
  - apply M_bind_Ok in Hpre as ([] & w0 & Hp & Hpre).
    rewrite (M_bind_Ok_l _ _ _ _ _ Hp). by apply IH.
Qed.

Lemma load_one_down (item : string * DataFrame) (w : World) :
  table_id_of item.1 ∈ bq_down w →
  ∃ w', load_one item w = (w', Err (ServiceUnavailable (table_id_of item.1))) ∧
        bq_tables w' = bq_tables w ∧
        bq_log w' = bq_log w ++ [JobSubmitted (table_id_of item.1) item.2].
Proof.
  intros Hdown. unfold load_one, mbind, M_bind, print,
    load_table_from_dataframe, job_result. simpl.
  rewrite decide_True by done. by eexists.
Qed.

(** X12.  The loop over the tables stops at the first load that fails and
    takes nothing back: when the destination of one table is unavailable,
    the tables before it in the dictionary have been written and stay
    written, the job of the failing table has been submitted but has changed
    nothing, and no job is submitted for the tables after it. *)
Theorem failed_load_stops_the_loop (t : Tables)
  (pre post : list (string * DataFrame)) (name : string) (data : DataFrame)
  (w w1 : World) :
  tables_dict t = pre ++ (name, data) :: post →
  for_each pre load_one w = (w1, Ok ()) →
  table_id_of name ∈ bq_down w →
  ∃ w2, for_each (tables_dict t) load_one w
        = (w2, Err (ServiceUnavailable (table_id_of name))) ∧
        bq_tables w2 = bq_tables w1 ∧
        bq_log w2 = bq_log w ++ (pre ≫= job_events)
                    ++ [JobSubmitted (table_id_of name) data] ∧
        (∀ n d, (n, d) ∈ pre →
           bq_tables w2 !! table_id_of n
           = Some (appended (bq_tables w !! table_id_of n) d)).
Proof.
  intros Hdict Hpre Hdown.
  assert (NoDup pre.*1) as Hnd.
  { assert (NoDup (tables_dict t).*1) as Hall by compute_done.
    rewrite Hdict, fmap_app in Hall. by apply NoDup_app in Hall as [? _]. }
  assert (bq_down w1 = bq_down w) as Hd1.
  { clear -Hpre. revert w Hpre.
    induction pre as [|p pre IH]; intros w Hpre; simpl in Hpre.
    - by injection Hpre as <-.
    - apply M_bind_Ok in Hpre as ([] & w0 & (_ & _ & Hd & _)%load_one_Ok & H).
      rewrite (IH _ H). done. }
  destruct (load_one_down (name, data) w1) as (w2 & Hw2 & Ht2 & Hl2).
  { simpl. by rewrite Hd1. }
  exists w2. rewrite Hdict.
  split; [by eapply for_each_app_fails|].
  apply for_each_load_Ok in Hpre as (Hl & Ht & _); [|done].
  split; [done|]. split.
  - rewrite Hl2, Hl. simpl. by rewrite <- (assoc_L (++)).
  - intros n d Hin. rewrite Ht2. by apply Ht.
Qed.

(** *** A run that goes through *)




End Further.

(** ** The theorems at the sample file *)

Lemma sample_run_Ok :
  build_tables parse_iso_date sample_df sample_world
  = (sample_run.1, Ok sample_tables).
Proof. compute_done. Qed.

Lemma fact_row_count_witness :
  build_tables parse_iso_date sample_df sample_world
    = (sample_run.1, Ok sample_tables) ∧
  length (rows (sales_fact sample_tables)) = length (rows sample_df).
Proof.
  split; [exact sample_run_Ok|].
  exact (proj1 (fact_row_count parse_iso_date sample_df sample_world
                  sample_run.1 sample_tables sample_run_Ok)).
Defined.

Lemma sale_id_sequence_witness :
  getitem "Sale ID" (sales_fact sample_tables)
  = Ok [Some (Num (Qc_of_nat 1)); Some (Num (Qc_of_nat 2));
        Some (Num (Qc_of_nat 3))].
Proof.
  exact (sale_id_sequence parse_iso_date sample_df sample_world
           sample_run.1 sample_tables sample_run_Ok).
Defined.

Lemma sample_first_row :
  default ∅ (rows (sales_fact sample_tables) !! 0)
  ∈ rows (sales_fact sample_tables).
Proof. apply (list_elem_of_lookup_2 _ 0). compute_done. Qed.



Lemma dimensions_deduplicated_witness :
  dimension_of "Customer ID" customer_columns sample_df
    (customer_dim sample_tables) ∧
  dimension_of "Product ID" product_columns sample_df
    (product_dim sample_tables) ∧
  dimension_of "Order ID" order_columns sample_df (order_dim sample_tables).
Proof.
  exact (dimensions_deduplicated parse_iso_date sample_df sample_world
           sample_run.1 sample_tables sample_run_Ok).
Defined.

Lemma sample_first_date :
  default ∅ (rows (time_dim sample_tables) !! 0) ∈ rows (time_dim sample_tables).
Proof. apply (list_elem_of_lookup_2 _ 0). compute_done. Qed.

Lemma time_dimension_calendar_witness :
  default ∅ (rows (time_dim sample_tables) !! 0) !! "Date"
    = Some (Date (mkTimestamp 2024 3 15 0)) ∧
  calendar_row (default ∅ (rows (time_dim sample_tables) !! 0)).
Proof.
  split; [compute_done|].
  destruct (time_dimension_calendar parse_iso_date sample_df sample_world
              sample_run.1 sample_tables sample_run_Ok)
    as (parsed & _ & _ & _ & H).
  exact (H _ sample_first_date).
Defined.

Lemma missing_column_fails_witness :
  ∃ w', etl_pipeline parse_iso_date read_plain_csv sample_event short_world
        = (w', Ok ()) ∧
        bq_log w' = bq_log short_world ∧
        bq_tables w' = bq_tables short_world.
Proof.
  apply (proj2 (missing_column_fails parse_iso_date read_plain_csv short_df
                  "Discount" ltac:(compute_done) ltac:(compute_done))
           sample_event short_world "sales-bucket" "orders.csv" short_text);
    compute_done.
Defined.

Lemma sample_load_Ok :
  load_tables sample_tables sample_world
  = ((load_tables sample_tables sample_world).1, Ok ()).
Proof. compute_done. Qed.

Lemma sink_writer_appends_witness :
  bq_log (load_tables sample_tables sample_world).1
  = bq_log sample_world ++ (tables_dict sample_tables ≫= job_events).
Proof.
  exact (proj1 (proj2 (sink_writer_appends sample_tables sample_world _
                         sample_load_Ok))).
Defined.


(** ** Where the specification and the program part *)

(** C8 states that each write overwrites its destination.  Handling the
    same file a second time leaves six rows in [sales_fact], the three of
    the first run followed by the three of the second: the destination is
    not the table that was written. *)
Lemma sink_does_not_overwrite :
  bq_tables after_first_run !! sales_fact_id = Some (sales_fact sample_tables) ∧
  bq_tables after_second_run !! sales_fact_id
    = Some (mkDF fact_columns (rows (sales_fact sample_tables)
                               ++ rows (sales_fact sample_tables))) ∧
  bq_tables after_second_run !! sales_fact_id
    ≠ Some (sales_fact sample_tables).
Proof.
  split; [compute_done|]. split; compute_done.
Qed.


(** ** The further properties at the sample files *)



Lemma header_required (c : string) :
  c ∈ required_columns → c ∈ columns header_df.
Proof. revert c. apply Forall_forall. compute_done. Qed.


Lemma output_schemas_witness :
  columns (customer_dim sample_tables) = customer_columns ∧
  columns (sales_fact sample_tables) = fact_columns.
Proof.
  destruct (output_schemas parse_iso_date sample_df sample_world sample_run.1
              sample_tables sample_run_Ok) as (H1 & _ & _ & _ & H5).
  exact (conj H1 H5).
Defined.

Lemma fact_row_carries_raw_row_witness :
  sample_first_fact !! "Sales" = sample_raw_row !! "Sales" ∧
  sample_first_fact !! "Date"
  = parsed_cell parse_iso_date (sample_raw_row !! "Order Date").
Proof.
  destruct (fact_row_carries_raw_row parse_iso_date sample_df sample_world
              sample_run.1 sample_tables 0 sample_raw_row sample_first_fact
              sample_run_Ok ltac:(compute_done) ltac:(compute_done))
    as (H1 & H2 & _).
  split; [apply H1; compute_done | exact H2].
Defined.

Lemma fact_keys_in_dimensions_witness :
  sample_first_fact !! "Customer ID"
    ∈ (λ d : row, d !! "Customer ID") <$> rows (customer_dim sample_tables) ∧
  sample_first_fact !! "Product ID"
    ∈ (λ d : row, d !! "Product ID") <$> rows (product_dim sample_tables) ∧
  sample_first_fact !! "Order ID"
    ∈ (λ d : row, d !! "Order ID") <$> rows (order_dim sample_tables) ∧
  sample_first_fact !! "Date"
    ∈ (λ d : row, d !! "Date") <$> rows (time_dim sample_tables).
Proof.
  exact (fact_keys_in_dimensions parse_iso_date sample_df sample_world
           sample_run.1 sample_tables sample_first_fact sample_run_Ok
           sample_first_row).
Defined.






Lemma empty_table_gives_empty_tables_witness :
  ∃ w' t, build_tables parse_iso_date header_df sample_world = (w', Ok t) ∧
          rows (customer_dim t) = [] ∧ rows (product_dim t) = [] ∧
          rows (order_dim t) = [] ∧ rows (time_dim t) = [] ∧
          rows (sales_fact t) = [].
Proof.
  apply (empty_table_gives_empty_tables parse_iso_date header_df sample_world).
  - exact header_required.
  - reflexivity.
Defined.



Lemma failed_load_stops_the_loop_witness :
  ∃ w2, for_each (tables_dict sample_tables) load_one down_world
        = (w2, Err (ServiceUnavailable (table_id_of "order_dim"))) ∧
        bq_tables w2 = bq_tables (for_each before_order_dim load_one down_world).1 ∧
        bq_log w2 = bq_log down_world ++ (before_order_dim ≫= job_events)
                    ++ [JobSubmitted (table_id_of "order_dim")
                          (order_dim sample_tables)] ∧
        (∀ n d, (n, d) ∈ before_order_dim →
           bq_tables w2 !! table_id_of n
           = Some (appended (bq_tables down_world !! table_id_of n) d)).
Proof.
  apply (failed_load_stops_the_loop sample_tables before_order_dim
           after_order_dim "order_dim" (order_dim sample_tables) down_world).
  - reflexivity.
  - compute_done.
  - compute_done.
Defined.

